(** * The contact endpoint of the Bean and Cofe backend (src/main.py)

    A shallow embedding of [submit_contact] and of the request validation
    that FastAPI runs in front of it, and of the diagnostic endpoint
    [test_database].  The handler talks to three things outside the
    file: the process environment, the document store
    ([database.create_document]) and an SMTP relay ([smtplib.SMTP]); it
    builds its message with the [email] package, whose calls can raise.
    Their answers are gathered in a record [World]; what the handler does
    to them is recorded as a list of [Event]s, next to the value it
    returns or the exception it raises. *)

From Stdlib Require Import ZArith List String Ascii Bool Lia.
From stdpp Require Import base option strings gmap.

Local Open Scope string_scope.
Local Open Scope Z_scope.
Local Open Scope list_scope.

(** ** Python values and builtins used by the handler *)

Module Py.

(** The values [create_document] may hand back as an identifier.
    [Obj] stands for any object without [__bool__] or [__len__]
    (a bson [ObjectId], say), which Python counts as true. *)
Inductive value : Type :=
| None_
| Bool (b : bool)
| Int (z : Z)
| Str (s : string)
| Obj (repr : string).

(** [bool(v)]. *)
Definition truthy (v : value) : bool :=
  match v with
  | None_ => false
  | Bool b => b
  | Int z => negb (z =? 0)
  | Str s => negb (String.eqb s "")
  | Obj _ => true
  end.

(** Truth value of an [Optional[str]], the type of [os.getenv(k)]. *)
Definition truthy_str (o : option string) : bool :=
  match o with
  | Some s => negb (String.eqb s "")
  | None => false
  end.

(** [a or b] on [Optional[str]]: [a] when it is true, [b] otherwise. *)
Definition or_ (a b : option string) : option string :=
  if truthy_str a then a else b.

(** [s.replace(old, new)] for a one-character [old]. *)
Fixpoint replace (old : ascii) (new : string) (s : string) : string :=
  match s with
  | EmptyString => EmptyString
  | String c rest =>
      if Ascii.eqb c old then new +:+ replace old new rest
      else String c (replace old new rest)
  end.

(** *** [int(s)] in base ten

    [int] strips ASCII white space on both sides, reads an optional sign,
    then digits in which single underscores may separate two digits, and
    raises [ValueError] on anything else, and on more than 4300 digits.
    [Some z] says that [int] returns [z]; [None] says that it raises
    [ValueError], for a string of ASCII characters.  The decimal digits
    and the spaces of other scripts, which [int] accepts too, are not
    read here: on such a string the result is [None] where [int]
    returns. *)

Definition is_space (c : ascii) : bool :=
  let n := nat_of_ascii c in
  ((9 <=? n)%nat && (n <=? 13)%nat) || (n =? 32)%nat.

Definition digit_value (c : ascii) : option Z :=
  let n := nat_of_ascii c in
  if ((48 <=? n)%nat && (n <=? 57)%nat) then Some (Z.of_nat (n - 48)) else None.

Fixpoint lstrip (s : string) : string :=
  match s with
  | String c rest => if is_space c then lstrip rest else s
  | EmptyString => EmptyString
  end.

(** Digits with single underscores between them, read left to right.
    [prev_us] says that the character before was an underscore, [acc] is
    the value so far and [n] the number of digits so far.  The result is
    the value, the digit count and the unread rest. *)
Fixpoint scan_digits (prev_us : bool) (acc : Z) (n : nat) (s : string)
  : option (Z * nat * string) :=
  match s with
  | String c rest =>
      match digit_value c with
      | Some d => scan_digits false (10 * acc + d) (S n) rest
      | None =>
          if Ascii.eqb c "_"%char then
            if prev_us then None else scan_digits true acc n rest
          else if prev_us then None else Some (acc, n, s)
      end
  | EmptyString => if prev_us then None else Some (acc, n, EmptyString)
  end.

Definition max_str_digits : nat := 4300.

Definition unsigned_int (s : string) : option Z :=
  match s with
  | String c _ =>
      if Ascii.eqb c "_"%char then None
      else
        match scan_digits false 0 0 s with
        | Some (v, n, rest) =>
            if (n =? 0)%nat then None
            else if (max_str_digits <? n)%nat then None
            else match lstrip rest with
                 | EmptyString => Some v
                 | String _ _ => None
                 end
        | None => None
        end
  | EmptyString => None
  end.

Definition int (s : string) : option Z :=
  match lstrip s with
  | String c rest =>
      if Ascii.eqb c "+"%char then unsigned_int rest
      else if Ascii.eqb c "-"%char then Z.opp <$> unsigned_int rest
      else unsigned_int (String c rest)
  | EmptyString => None
  end.

End Py.

(** ** Data of the request and of the response *)

(** [ContactRequest] (main.py, lines 65-68): the body once pydantic has
    validated it. *)
Record ContactRequest : Type := {
  name : string;
  email : string;
  message : string
}.

(** The JSON body as it arrives: an object with three string members. *)
Record Body : Type := {
  body_name : string;
  body_email : string;
  body_message : string
}.

(** [schemas.ContactMessage], the document handed to the store. *)
Record ContactMessage : Type := {
  doc_name : string;
  doc_email : string;
  doc_message : string
}.

(** The message given to [sendmail].  The handler builds a
    [MIMEMultipart("alternative")], sets three headers and attaches one
    [MIMEText(html_body, "html")]; the relay receives [msg.as_string()],
    the serialisation of this structure by the [email] package.  Headers
    are kept in the order they are set.  Both [MIMEText(...)] and
    [as_string()] can raise; whether they do is asked of the [World]
    below. *)
Record MIMEText : Type := {
  text : string;
  subtype : string
}.

Record MIMEMultipart : Type := {
  multipart_subtype : string;
  headers : list (string * option string);
  parts : list MIMEText
}.

(** The dictionary the handler returns. *)
Record SubmissionResult : Type := {
  ok : bool;
  stored : bool;
  email_sent : bool;
  result_message : string
}.

(** ** Exceptions, events and the outside world *)

(** Every exception below derives from [Exception], so [except Exception]
    catches each of them. *)
Inductive exn : Type :=
| ValueError
| ValidationError
| StoreError
| SMTPConnectError
| SMTPStartTLSError
| SMTPAuthenticationError
| SMTPSendError
| SMTPResponseException
| UnicodeEncodeError
| HeaderWriteError.

(** One event per call that leaves the process. *)
Inductive Event : Type :=
| CreateDocument (collection : string) (doc : ContactMessage)
| SMTPOpen (host : option string) (port : Z) (timeout : Z)
| StartTLS
| Login (user password : option string)
| Sendmail (from_addr : option string) (to_addrs : list (option string))
           (msg : MIMEMultipart)
| Quit.

(** What the surroundings answer.  [EmailStr] is pydantic's address check
    ([None]: rejected, [Some e]: accepted and normalised to [e]);
    [ContactMessage_accepts] says whether the constructor of
    [schemas.ContactMessage] accepts the three fields; [create_document]
    is [database.create_document] ([None]: it raises, also when no
    database is set up); the [relay_] fields say which steps of the SMTP
    session go through, [relay_quit] being the QUIT that leaving the
    [with] block sends.  Two answers come from the [email] package:
    [MIMEText_encodes text] says whether [MIMEText(text, "html")] can
    encode the text (it raises [UnicodeEncodeError] on a lone surrogate),
    [as_string_returns msg] whether [msg.as_string()] returns (it raises
    on a header that would break the line structure, for one). *)
Record World : Type := {
  environ : gmap string string;
  EmailStr : string -> option string;
  ContactMessage_accepts : string -> string -> string -> bool;
  create_document : string -> ContactMessage -> option Py.value;
  relay_connect : option string -> Z -> bool;
  relay_starttls : bool;
  relay_login : option string -> option string -> bool;
  relay_sendmail : option string -> list (option string) -> MIMEMultipart -> bool;
  relay_quit : bool;
  MIMEText_encodes : string -> bool;
  as_string_returns : MIMEMultipart -> bool
}.

(** ** Computations: a trace of events and a value or an exception *)

Definition M (A : Type) : Type := (list Event * (exn + A))%type.

Definition ret {A : Type} (a : A) : M A := ([], inr a).

Definition raise {A : Type} (e : exn) : M A := ([], inl e).

Definition emit (ev : Event) : M unit := ([ev], inr tt).

Definition bind {A B : Type} (m : M A) (k : A -> M B) : M B :=
  match m with
  | (t, inl e) => (t, inl e)
  | (t, inr a) => let '(t', r) := k a in (t ++ t', r)
  end.

(** [try: m except Exception: h]. *)
Definition try_except {A : Type} (m : M A) (h : exn -> M A) : M A :=
  match m with
  | (t, inl e) => let '(t', r) := h e in (t ++ t', r)
  | (t, inr a) => (t, inr a)
  end.

(** [with enter as x: body x], for a context manager whose [__exit__]
    returns [None]: [exit_] runs however the body ends; an exception of
    [exit_] wins, otherwise the body's outcome stands. *)
Definition with_as {A B : Type} (enter : M A) (exit_ : A -> M unit)
    (body : A -> M B) : M B :=
  match enter with
  | (t, inl e) => (t, inl e)
  | (t, inr x) =>
      let '(tb, rb) := body x in
      let '(te, re) := exit_ x in
      (t ++ tb ++ te,
       match re with
       | inl e => inl e
       | inr _ => rb
       end)
  end.

Notation "'let*' x ':=' m 'in' k" := (bind m (fun x => k))
  (at level 10, x name, m at level 100, k at level 200).
Notation "m ';;' k" := (bind m (fun _ => k))
  (at level 100, k at level 200, right associativity).

(** A call to a collaborator: logged, then answered by the world. *)
Definition call {A : Type} (ev : Event) (answer : option A) (e : exn) : M A :=
  emit ev ;;
  match answer with
  | Some a => ret a
  | None => raise e
  end.

Definition guard (b : bool) : option unit := if b then Some tt else None.

(** ** The handler [submit_contact] (main.py, lines 70-129) *)

(** [os.getenv(k)] and [os.getenv(k, d)]. *)
Definition getenv (w : World) (k : string) : option string :=
  environ w !! k.

Definition getenv_default (w : World) (k d : string) : string :=
  default d (environ w !! k).

(** [int(s)], raising [ValueError]. *)
Definition int (s : string) : M Z :=
  match Py.int s with
  | Some z => ret z
  | None => raise ValueError
  end.

(** [ContactMessage(name=..., email=..., message=...)]. *)
Definition new_ContactMessage (w : World) (n e m : string) : M ContactMessage :=
  if ContactMessage_accepts w n e m
  then ret {| doc_name := n; doc_email := e; doc_message := m |}
  else raise ValidationError.

(** Lines 76-82: save to the database, [_id = None] on any exception. *)
Definition save_to_database (w : World) (payload : ContactRequest) : M Py.value :=
  try_except
    (let* contact_doc :=
       new_ContactMessage w (name payload) (email payload) (message payload) in
     call (CreateDocument "contactmessage" contact_doc)
          (create_document w "contactmessage" contact_doc) StoreError)
    (fun _ => ret Py.None_).

(** The six values of lines 85-90. *)
Record MailConfig : Type := {
  smtp_host : option string;
  smtp_port : Z;
  smtp_user : option string;
  smtp_pass : option string;
  smtp_from : option string;
  smtp_to : option string
}.

(** Lines 85-90.  The call of [int] at line 86 stands outside every [try]. *)
Definition prepare_email (w : World) : M MailConfig :=
  let host := getenv w "SMTP_HOST" in
  let* port := int (getenv_default w "SMTP_PORT" "587") in
  let user := getenv w "SMTP_USER" in
  let pass := getenv w "SMTP_PASS" in
  let from := Py.or_ (getenv w "SMTP_FROM") (getenv w "SMTP_USER") in
  let to := Py.or_ (getenv w "SMTP_TO") (getenv w "CONTACT_RECIPIENT") in
  ret {| smtp_host := host; smtp_port := port; smtp_user := user;
         smtp_pass := pass; smtp_from := from; smtp_to := to |}.

(** The condition of line 92, before its [not]. *)
Definition configured (c : MailConfig) : bool :=
  Py.truthy_str (smtp_host c) && negb (smtp_port c =? 0)
  && Py.truthy_str (smtp_user c) && Py.truthy_str (smtp_pass c)
  && Py.truthy_str (smtp_from c) && Py.truthy_str (smtp_to c).

Definition NOT_CONFIGURED : string :=
  "Contact saved. Email service not configured on server. Please set SMTP environment variables to enable email sending.".

Definition THANKS : string :=
  "Thanks! Your message has been received. We'll get back to you shortly.".

Definition newline : ascii := "010"%char.

(** Line 101. *)
Definition subject (payload : ContactRequest) : string :=
  "New Inquiry from Bean and Cofe: " +:+ name payload.

(** Lines 102-107: the f-string, with its line breaks and indentation. *)
Definition html_body (payload : ContactRequest) : string :=
  String newline "        <h2>New Contact Inquiry</h2>"
  +:+ String newline "        <p><strong>Name:</strong> " +:+ name payload
  +:+ "</p>"
  +:+ String newline "        <p><strong>Email:</strong> " +:+ email payload
  +:+ "</p>"
  +:+ String newline "        <p><strong>Message:</strong><br/>"
  +:+ Py.replace newline "<br/>" (message payload)
  +:+ "</p>"
  +:+ String newline "    ".

(** [MIMEText(text, subtype)], raising [UnicodeEncodeError] when the
    text cannot be encoded. *)
Definition new_MIMEText (w : World) (text subtype : string) : M MIMEText :=
  if MIMEText_encodes w text
  then ret {| text := text; subtype := subtype |}
  else raise UnicodeEncodeError.

(** [msg.attach(part)]. *)
Definition attach (msg : MIMEMultipart) (part : MIMEText) : MIMEMultipart :=
  {| multipart_subtype := multipart_subtype msg;
     headers := headers msg;
     parts := parts msg ++ [part] |}.

(** Lines 109-113, which stand outside every [try]: the multipart with
    its three headers, then the html part, whose construction can
    raise. *)
Definition make_message (w : World) (payload : ContactRequest) (c : MailConfig)
  : M MIMEMultipart :=
  let msg := {| multipart_subtype := "alternative";
                headers := [("Subject", Some (subject payload));
                            ("From", smtp_from c);
                            ("To", smtp_to c)];
                parts := [] |} in
  let* part := new_MIMEText w (html_body payload) "html" in
  ret (attach msg part).

(** The message lines 109-113 leave in [msg] when [MIMEText] raises
    nothing. *)
Definition build_message (payload : ContactRequest) (c : MailConfig) : MIMEMultipart :=
  {| multipart_subtype := "alternative";
     headers := [("Subject", Some (subject payload));
                 ("From", smtp_from c);
                 ("To", smtp_to c)];
     parts := [{| text := html_body payload; subtype := "html" |}] |}.

Definition SMTP_TIMEOUT : Z := 15.

(** [msg.as_string()], raising when the message cannot be serialised. *)
Definition as_string (w : World) (msg : MIMEMultipart) : M unit :=
  if as_string_returns w msg then ret tt else raise HeaderWriteError.

(** Lines 115-122: one SMTP session inside [try]; [email_sent] is set to
    [True] after the [with] block has been left without an exception.
    At line 119 [msg.as_string()] is evaluated before [sendmail] is
    called: when it raises, nothing is handed to the relay.  The handler
    gets here only past line 92, with a host to connect to. *)
Definition send_email (w : World) (c : MailConfig) (msg : MIMEMultipart) : M bool :=
  try_except
    (with_as
       (call (SMTPOpen (smtp_host c) (smtp_port c) SMTP_TIMEOUT)
             (guard (relay_connect w (smtp_host c) (smtp_port c)))
             SMTPConnectError)
       (fun server => call Quit (guard (relay_quit w)) SMTPResponseException)
       (fun server =>
          call StartTLS (guard (relay_starttls w)) SMTPStartTLSError ;;
          call (Login (smtp_user c) (smtp_pass c))
               (guard (relay_login w (smtp_user c) (smtp_pass c)))
               SMTPAuthenticationError ;;
          as_string w msg ;;
          call (Sendmail (smtp_from c) [smtp_to c] msg)
               (guard (relay_sendmail w (smtp_from c) [smtp_to c] msg))
               SMTPSendError) ;;
     ret true)
    (fun _ => ret false).

(** Lines 71-129. *)
Definition submit_contact (w : World) (payload : ContactRequest) : M SubmissionResult :=
  let* _id := save_to_database w payload in
  let* c := prepare_email w in
  if negb (configured c) then
    ret {| ok := true;
           stored := Py.truthy _id;
           email_sent := false;
           result_message := NOT_CONFIGURED |}
  else
    let* msg := make_message w payload c in
    let* sent := send_email w c msg in
    ret {| ok := true;
           stored := Py.truthy _id;
           email_sent := sent;
           result_message := THANKS |}.

(** ** The endpoint [POST /contact]

    FastAPI parses the body into a [ContactRequest] first; when pydantic
    rejects it the handler is not called and the answer is 422.  An
    exception that leaves the handler becomes a 500. *)

Inductive Response : Type :=
| Unprocessable422
| Ok200 (r : SubmissionResult)
| ServerError500 (e : exn).

Definition validate (w : World) (b : Body) : option ContactRequest :=
  match EmailStr w (body_email b) with
  | Some e => Some {| name := body_name b; email := e; message := body_message b |}
  | None => None
  end.

Definition post_contact (w : World) (b : Body) : list Event * Response :=
  match validate w b with
  | None => ([], Unprocessable422)
  | Some payload =>
      match submit_contact w payload with
      | (t, inr r) => (t, Ok200 r)
      | (t, inl e) => (t, ServerError500 e)
      end
  end.

(** ** Reading the trace and the configuration *)

Definition is_store_call (ev : Event) : bool :=
  match ev with
  | CreateDocument _ _ => true
  | _ => false
  end.

Definition is_connection (ev : Event) : bool :=
  match ev with
  | SMTPOpen _ _ _ => true
  | _ => false
  end.

Definition is_smtp (ev : Event) : bool := negb (is_store_call ev).

Definition sends_credentials_or_mail (ev : Event) : bool :=
  match ev with
  | Login _ _ | Sendmail _ _ _ => true
  | _ => false
  end.

Definition store_calls (t : list Event) : list Event := List.filter is_store_call t.

Definition connections (t : list Event) : list Event := List.filter is_connection t.

Definition smtp_events (t : list Event) : list Event := List.filter is_smtp t.

Definition is_transmission (ev : Event) : bool :=
  match ev with
  | Sendmail _ _ _ => true
  | _ => false
  end.

Definition transmissions (t : list Event) : list Event :=
  List.filter is_transmission t.

(** The string line 86 hands to [int]. *)
Definition port_setting (w : World) : string :=
  getenv_default w "SMTP_PORT" "587".

(** The six values when lines 85-90 run through, [None] when line 86
    raises. *)
Definition mail_config (w : World) : option MailConfig :=
  match prepare_email w with
  | (_, inr c) => Some c
  | (_, inl _) => None
  end.

(** One of the six values is missing: [None], the empty string, or the
    port 0. *)
Definition missing_one (c : MailConfig) : Prop :=
  Py.truthy_str (smtp_host c) = false \/ smtp_port c = 0
  \/ Py.truthy_str (smtp_user c) = false \/ Py.truthy_str (smtp_pass c) = false
  \/ Py.truthy_str (smtp_from c) = false \/ Py.truthy_str (smtp_to c) = false.

(** What the store call of lines 78-79 gives back: [Some id] when the
    document was built and [create_document] returned [id], [None] when
    either raised. *)
Definition create_call_result (w : World) (payload : ContactRequest)
  : option Py.value :=
  if ContactMessage_accepts w (name payload) (email payload) (message payload)
  then create_document w "contactmessage"
         {| doc_name := name payload; doc_email := email payload;
            doc_message := message payload |}
  else None.

Definition persistence_events (w : World) (payload : ContactRequest) : list Event :=
  if ContactMessage_accepts w (name payload) (email payload) (message payload)
  then [CreateDocument "contactmessage"
          {| doc_name := name payload; doc_email := email payload;
             doc_message := message payload |}]
  else [].

(** The whole [with] block goes through: connection, STARTTLS, login,
    serialisation of the message, transmission, and the QUIT on leaving
    the block. *)
Definition session_ok (w : World) (c : MailConfig) (msg : MIMEMultipart) : bool :=
  relay_connect w (smtp_host c) (smtp_port c)
  && relay_starttls w
  && relay_login w (smtp_user c) (smtp_pass c)
  && as_string_returns w msg
  && relay_sendmail w (smtp_from c) [smtp_to c] msg
  && relay_quit w.

(** The session gets as far as handing the message over. *)
Definition session_reaches_sendmail (w : World) (c : MailConfig)
    (msg : MIMEMultipart) : bool :=
  relay_connect w (smtp_host c) (smtp_port c)
  && relay_starttls w
  && relay_login w (smtp_user c) (smtp_pass c)
  && as_string_returns w msg.

Definition session_events (w : World) (c : MailConfig) (msg : MIMEMultipart)
  : list Event :=
  SMTPOpen (smtp_host c) (smtp_port c) SMTP_TIMEOUT ::
  if relay_connect w (smtp_host c) (smtp_port c) then
    StartTLS ::
    (if relay_starttls w then
       Login (smtp_user c) (smtp_pass c) ::
       (if relay_login w (smtp_user c) (smtp_pass c) && as_string_returns w msg
        then [Sendmail (smtp_from c) [smtp_to c] msg] else [])
     else [])
    ++ [Quit]
  else [].

(** [secured_first secured t]: no credentials and no mail go out in [t]
    before a [StartTLS], [secured] telling whether one has been seen. *)
Fixpoint secured_first (secured : bool) (t : list Event) : bool :=
  match t with
  | [] => true
  | ev :: t' =>
      match ev with
      | StartTLS => secured_first true t'
      | Login _ _ | Sendmail _ _ _ => secured && secured_first secured t'
      | _ => secured_first secured t'
      end
  end.

(** ** Strings: containment, lines *)

Definition substring_of (sub s : string) : Prop :=
  exists pre post, s = pre +:+ sub +:+ post.

Definition no_newline (s : string) : Prop :=
  ~ In newline (list_ascii_of_string s).

(** [s.split("\n")]. *)
Fixpoint split_lines (s : string) : list string :=
  match s with
  | EmptyString => [EmptyString]
  | String c rest =>
      if Ascii.eqb c newline then EmptyString :: split_lines rest
      else match split_lines rest with
           | l :: ls => String c l :: ls
           | [] => [String c EmptyString]
           end
  end.

(** [sep.join(ls)]. *)
Fixpoint join (sep : string) (ls : list string) : string :=
  match ls with
  | [] => EmptyString
  | [l] => l
  | l :: ls' => l +:+ sep +:+ join sep ls'
  end.

(** ** The configuration rule as the specification words it

    Host, user and password are the variables themselves; the port is
    SMTP_PORT, 587 when unset; the sender is SMTP_FROM, SMTP_USER when
    unset; the recipient is SMTP_TO, CONTACT_RECIPIENT when unset.
    Delivery is to be attempted when none of the six is absent or empty. *)

Definition spec_fallback (primary secondary : option string) : option string :=
  match primary with
  | Some v => Some v
  | None => secondary
  end.

Definition spec_effective_values (w : World) : list (option string) :=
  [ getenv w "SMTP_HOST";
    spec_fallback (getenv w "SMTP_PORT") (Some "587");
    getenv w "SMTP_USER";
    getenv w "SMTP_PASS";
    spec_fallback (getenv w "SMTP_FROM") (getenv w "SMTP_USER");
    spec_fallback (getenv w "SMTP_TO") (getenv w "CONTACT_RECIPIENT") ].

Definition spec_non_empty (o : option string) : bool :=
  match o with
  | Some s => negb (String.eqb s "")
  | None => false
  end.

Definition spec_all_non_empty (w : World) : bool :=
  forallb spec_non_empty (spec_effective_values w).

Definition delivery_attempted (t : list Event) : bool :=
  existsb is_connection t.

(** ** Sample surroundings, for running the handler *)

(** A stand-in for pydantic's check: an address is a string with an [@]. *)
Definition has_at (s : string) : bool :=
  existsb (Ascii.eqb "@"%char) (list_ascii_of_string s).

Definition sample_EmailStr (s : string) : option string :=
  if has_at s then Some s else None.

(** Stand-ins for the [email] package: a text is refused when it holds
    a surrogate (the bytes ED A0..BF of its three-byte form), a message
    when a header value holds a line feed or a carriage return. *)
Fixpoint has_surrogate (s : string) : bool :=
  match s with
  | String a rest =>
      match rest with
      | String b _ =>
          ((nat_of_ascii a =? 237)%nat && (160 <=? nat_of_ascii b)%nat)
          || has_surrogate rest
      | EmptyString => false
      end
  | EmptyString => false
  end.

Definition has_line_break (s : string) : bool :=
  existsb (fun c => Ascii.eqb c newline || Ascii.eqb c "013"%char)
          (list_ascii_of_string s).

Definition sample_encodes (text : string) : bool := negb (has_surrogate text).

Definition sample_serialises (msg : MIMEMultipart) : bool :=
  forallb (fun h => match snd h with
                    | Some v => negb (has_line_break v)
                    | None => true
                    end)
          (headers msg).

(** [env]: the environment; [store]: what [create_document] answers;
    [up]: whether the relay takes every step. *)
Definition sample_world (env : gmap string string) (store : option Py.value)
    (up : bool) : World :=
  {| environ := env;
     EmailStr := sample_EmailStr;
     ContactMessage_accepts := fun _ _ _ => true;
     create_document := fun _ _ => store;
     relay_connect := fun _ _ => up;
     relay_starttls := up;
     relay_login := fun _ _ => up;
     relay_sendmail := fun _ _ _ => up;
     relay_quit := up;
     MIMEText_encodes := sample_encodes;
     as_string_returns := sample_serialises |}.

Definition smtp_env : gmap string string :=
  list_to_map [("SMTP_HOST", "smtp.example.com");
               ("SMTP_USER", "bot@example.com");
               ("SMTP_PASS", "hunter2");
               ("SMTP_TO", "owner@example.com")].

Definition ada : Body :=
  {| body_name := "Ada";
     body_email := "ada@example.com";
     body_message := "Hi" +:+ String newline "there" |}.

Definition ada_request : ContactRequest :=
  {| name := "Ada";
     email := "ada@example.com";
     message := "Hi" +:+ String newline "there" |}.

Definition not_an_address : Body :=
  {| body_name := "Ada";
     body_email := "ada.example.com";
     body_message := "Hi" |}.

Definition smtp_config : MailConfig :=
  {| smtp_host := Some "smtp.example.com";
     smtp_port := 587;
     smtp_user := Some "bot@example.com";
     smtp_pass := Some "hunter2";
     smtp_from := Some "bot@example.com";
     smtp_to := Some "owner@example.com" |}.

(** ** Comparing surroundings, reading headers *)

(** The variables lines 85-90 read. *)
Definition mail_variables : list string :=
  ["SMTP_HOST"; "SMTP_PORT"; "SMTP_USER"; "SMTP_PASS"; "SMTP_FROM";
   "SMTP_TO"; "CONTACT_RECIPIENT"].

(** The same surroundings with another environment. *)
Definition with_environ (w : World) (env : gmap string string) : World :=
  {| environ := env;
     EmailStr := EmailStr w;
     ContactMessage_accepts := ContactMessage_accepts w;
     create_document := create_document w;
     relay_connect := relay_connect w;
     relay_starttls := relay_starttls w;
     relay_login := relay_login w;
     relay_sendmail := relay_sendmail w;
     relay_quit := relay_quit w;
     MIMEText_encodes := MIMEText_encodes w;
     as_string_returns := as_string_returns w |}.

(** Two surroundings that differ at most in the document store. *)
Definition same_but_store (w w' : World) : Prop :=
  environ w = environ w'
  /\ EmailStr w = EmailStr w'
  /\ relay_connect w = relay_connect w'
  /\ relay_starttls w = relay_starttls w'
  /\ relay_login w = relay_login w'
  /\ relay_sendmail w = relay_sendmail w'
  /\ relay_quit w = relay_quit w'
  /\ MIMEText_encodes w = MIMEText_encodes w'
  /\ as_string_returns w = as_string_returns w'.

(** Two surroundings with the same address check and the same store. *)
Definition same_store (w w' : World) : Prop :=
  EmailStr w = EmailStr w'
  /\ ContactMessage_accepts w = ContactMessage_accepts w'
  /\ create_document w = create_document w'.

(** Two surroundings with the same environment, the same address check
    and the same [MIMEText]: they may differ in the store, in the relay
    and in [as_string]. *)
Definition same_request_checks (w w' : World) : Prop :=
  environ w = environ w'
  /\ EmailStr w = EmailStr w'
  /\ MIMEText_encodes w = MIMEText_encodes w'.

Definition status_code (o : Response) : Z :=
  match o with
  | Unprocessable422 => 422
  | Ok200 _ => 200
  | ServerError500 _ => 500
  end.

(** [msg[k]]: the value of the first header named [k]. *)
Definition get_header (k : string) (msg : MIMEMultipart) : option (option string) :=
  snd <$> List.find (fun h => String.eqb (fst h) k) (headers msg).

(** The answer with its [stored] field blanked. *)
Definition mail_outcome (o : Response) : Response :=
  match o with
  | Ok200 r =>
      Ok200 {| ok := ok r; stored := false; email_sent := email_sent r;
               result_message := result_message r |}
  | other => other
  end.

(** ** The endpoint [GET /test] (main.py, lines 31-63)

    [test_database] fills a dictionary and changes it key by key, partly
    inside [try] blocks: a computation here carries the dictionary along
    and ends in a value or in an exception, of which only the text
    [str(e)] is kept.  What was written before an exception stays
    written. *)

Module Diagnostics.

(** The values the dictionary holds: [None], a string, a list of names. *)
Inductive item : Type :=
| Null
| Text (s : string)
| Names (l : list string).

(** [database.db]: [None] when no database is set up, otherwise what
    [db.list_collection_names()] does: it raises an exception with text
    [msg] ([inl msg]) or returns the names ([inr names]). *)
Definition Db : Type := option (string + list string).

Definition R (A : Type) : Type :=
  gmap string item -> gmap string item * (string + A).

Definition ret {A : Type} (a : A) : R A := fun r => (r, inr a).

Definition bind {A B : Type} (m : R A) (k : A -> R B) : R B :=
  fun r =>
    match m r with
    | (r', inl e) => (r', inl e)
    | (r', inr a) => k a r'
    end.

(** [response[k] = v]. *)
Definition set_item (k : string) (v : item) : R unit :=
  fun r => (<[k := v]> r, inr tt).

(** [try: m except Exception as e: h e]. *)
Definition try_except {A : Type} (m : R A) (h : string -> R A) : R A :=
  fun r =>
    match m r with
    | (r', inl e) => h e r'
    | (r', inr a) => (r', inr a)
    end.

Definition list_collection_names (answer : string + list string)
  : R (list string) :=
  fun r => (r, answer).

(** A string holds the UTF-8 form of a Python [str]: a character is a
    byte outside 80..BF followed by its continuation bytes 80..BF. *)
Definition is_continuation (c : ascii) : bool :=
  ((128 <=? nat_of_ascii c) && (nat_of_ascii c <? 192))%nat.

(** [len(s)]: the number of characters. *)
Fixpoint code_points (s : string) : nat :=
  match s with
  | String c rest =>
      if is_continuation c then code_points rest else S (code_points rest)
  | EmptyString => O
  end.

(** [s[:n]]: the first [n] characters, each with its continuation
    bytes. *)
Fixpoint str_take (n : nat) (s : string) : string :=
  match s with
  | String c rest =>
      if is_continuation c then String c (str_take n rest)
      else match n with
           | S n' => String c (str_take n' rest)
           | O => EmptyString
           end
  | EmptyString => EmptyString
  end.

(** U+2705, U+274C and U+26A0 U+FE0F, in UTF-8. *)
Definition CHECK_MARK : string :=
  String "226"%char (String "156"%char (String "133"%char "")).

Definition CROSS_MARK : string :=
  String "226"%char (String "157"%char (String "140"%char "")).

Definition WARNING_SIGN : string :=
  String "226"%char (String "154"%char (String "160"%char
    (String "239"%char (String "184"%char (String "143"%char ""))))).

(** Lines 34-41. *)
Definition initial_response : gmap string item :=
  list_to_map
    [("backend", Text (CHECK_MARK +:+ " Running"));
     ("database", Text (CROSS_MARK +:+ " Not Available"));
     ("database_url", Null);
     ("database_name", Null);
     ("connection_status", Text "Not Connected");
     ("collections", Names [])].

(** ["(mark) Set" if os.getenv(k) else "(mark) Not Set"], lines 60-61. *)
Definition env_flag (env : gmap string string) (k : string) : item :=
  if Py.truthy_str (env !! k) then Text (CHECK_MARK +:+ " Set")
  else Text (CROSS_MARK +:+ " Not Set").

Notation "'let+' x ':=' m 'in' k" := (bind m (fun x => k))
  (at level 10, x name, m at level 100, k at level 200).
Notation "m ';;;' k" := (bind m (fun _ => k))
  (at level 100, k at level 200, right associativity).

(** Lines 43-63, on the dictionary of lines 34-41. *)
Definition fill_response (db : Db) (env : gmap string string) : R unit :=
  try_except
    (match db with
     | Some answer =>
         set_item "database" (Text (CHECK_MARK +:+ " Available")) ;;;
         try_except
           (let+ collections := list_collection_names answer in
            set_item "collections" (Names (firstn 10 collections)) ;;;
            set_item "database" (Text (CHECK_MARK +:+ " Connected & Working")) ;;;
            set_item "connection_status" (Text "Connected"))
           (fun e =>
              set_item "database"
                (Text (WARNING_SIGN +:+ "  Connected but Error: "
                       +:+ str_take 50 e)))
     | None =>
         set_item "database"
           (Text (WARNING_SIGN +:+ "  Available but not initialized"))
     end)
    (fun e =>
       set_item "database" (Text (CROSS_MARK +:+ " Error: " +:+ str_take 50 e))) ;;;
  set_item "database_url" (env_flag env "DATABASE_URL") ;;;
  set_item "database_name" (env_flag env "DATABASE_NAME").

(** [test_database()]: the dictionary returned, or the text of an
    exception that leaves the function. *)
Definition test_database (db : Db) (env : gmap string string)
  : string + gmap string item :=
  match fill_response db env initial_response with
  | (r, inr _) => inr r
  | (_, inl e) => inl e
  end.

(** The text under a key, when there is one. *)
Definition text_of (r : gmap string item) (k : string) : option string :=
  match r !! k with
  | Some (Text s) => Some s
  | _ => None
  end.

Definition names_of (r : gmap string item) (k : string) : option (list string) :=
  match r !! k with
  | Some (Names l) => Some l
  | _ => None
  end.

Definition response_keys : gset string :=
  list_to_set ["backend"; "database"; "database_url"; "database_name";
               "connection_status"; "collections"].

End Diagnostics.

(** * Properties *)

(** ** The stages in closed form *)

Section Stages.

Variable w : World.

Lemma save_to_database_eq (payload : ContactRequest) :
  save_to_database w payload
  = (persistence_events w payload,
     inr (default Py.None_ (create_call_result w payload))).
Proof.
  unfold save_to_database, new_ContactMessage, persistence_events,
    create_call_result.
  destruct (ContactMessage_accepts w _ _ _); [|reflexivity].
  cbn. destruct (create_document w _ _); reflexivity.
Qed.

(** The store stage never raises, whatever the store does. *)
Lemma save_to_database_returns (payload : ContactRequest) :
  exists t id, save_to_database w payload = (t, inr id).
Proof. rewrite save_to_database_eq. eauto. Qed.

Lemma prepare_email_cases :
  (prepare_email w = ([], inl ValueError)
   /\ mail_config w = None /\ Py.int (port_setting w) = None)
  \/ (exists c, prepare_email w = ([], inr c)
      /\ mail_config w = Some c
      /\ Py.int (port_setting w) = Some (smtp_port c)
      /\ smtp_host c = getenv w "SMTP_HOST"
      /\ smtp_user c = getenv w "SMTP_USER"
      /\ smtp_pass c = getenv w "SMTP_PASS"
      /\ smtp_from c = Py.or_ (getenv w "SMTP_FROM") (getenv w "SMTP_USER")
      /\ smtp_to c = Py.or_ (getenv w "SMTP_TO") (getenv w "CONTACT_RECIPIENT")).
Proof.
  unfold mail_config, prepare_email, int, port_setting.
  destruct (Py.int (getenv_default w "SMTP_PORT" "587")) as [p|].
  - right. eexists. cbn. repeat split; reflexivity.
  - left. cbn. auto.
Qed.

Lemma prepare_email_of_config (c : MailConfig) :
  mail_config w = Some c -> prepare_email w = ([], inr c).
Proof.
  intros H. destruct prepare_email_cases as [(_ & E & _)|(c' & Hp & E & _)];
    congruence.
Qed.

Lemma prepare_email_raises :
  mail_config w = None -> prepare_email w = ([], inl ValueError).
Proof.
  intros H. destruct prepare_email_cases as [(Hp & _)|(c' & _ & E & _)];
    congruence.
Qed.

Lemma mail_config_port (c : MailConfig) :
  mail_config w = Some c -> Py.int (port_setting w) = Some (smtp_port c).
Proof.
  intros H. destruct prepare_email_cases as [(_ & E & _)|(c' & _ & E & P & _)];
    congruence.
Qed.

Lemma mail_config_of_port (p : Z) :
  Py.int (port_setting w) = Some p ->
  exists c, mail_config w = Some c /\ smtp_port c = p.
Proof.
  intros H. destruct prepare_email_cases as [(_ & _ & E)|(c & _ & E & P & _)].
  - congruence.
  - exists c. split; [exact E | congruence].
Qed.


Lemma send_email_eq (c : MailConfig) (msg : MIMEMultipart) :
  send_email w c msg = (session_events w c msg, inr (session_ok w c msg)).
Proof.
  unfold send_email, session_events, session_ok.
  destruct (relay_connect w _ _); [|reflexivity].
  destruct (relay_starttls w); [|destruct (relay_quit w); reflexivity].
  destruct (relay_login w _ _); [|destruct (relay_quit w); reflexivity].
  unfold as_string.
  destruct (as_string_returns w msg); [|destruct (relay_quit w); reflexivity].
  destruct (relay_sendmail w _ _ _); destruct (relay_quit w); reflexivity.
Qed.

Lemma make_message_eq (payload : ContactRequest) (c : MailConfig) :
  make_message w payload c
  = if MIMEText_encodes w (html_body payload)
    then ([], inr (build_message payload c))
    else ([], inl UnicodeEncodeError).
Proof.
  unfold make_message, new_MIMEText.
  destruct (MIMEText_encodes w (html_body payload)); reflexivity.
Qed.

(** The mail stage never raises, whatever the relay does. *)
Lemma send_email_returns (c : MailConfig) (msg : MIMEMultipart) :
  exists t sent, send_email w c msg = (t, inr sent).
Proof. rewrite send_email_eq. eauto. Qed.

Lemma submit_contact_eq (payload : ContactRequest) :
  submit_contact w payload =
  match mail_config w with
  | None => (persistence_events w payload, inl ValueError)
  | Some c =>
      let _id := default Py.None_ (create_call_result w payload) in
      if configured c then
        if MIMEText_encodes w (html_body payload) then
          (persistence_events w payload
             ++ session_events w c (build_message payload c),
           inr {| ok := true;
                  stored := Py.truthy _id;
                  email_sent := session_ok w c (build_message payload c);
                  result_message := THANKS |})
        else (persistence_events w payload, inl UnicodeEncodeError)
      else
        (persistence_events w payload,
         inr {| ok := true;
                stored := Py.truthy _id;
                email_sent := false;
                result_message := NOT_CONFIGURED |})
  end.
Proof.
  unfold submit_contact. rewrite save_to_database_eq.
  destruct (mail_config w) as [c|] eqn:E.
  - rewrite (prepare_email_of_config c E). cbn.
    destruct (configured c); cbn.
    + rewrite make_message_eq.
      destruct (MIMEText_encodes w (html_body payload)); cbn.
      * rewrite send_email_eq. cbn. rewrite app_nil_r. reflexivity.
      * rewrite app_nil_r. reflexivity.
    + rewrite app_nil_r. reflexivity.
  - rewrite (prepare_email_raises E). cbn. rewrite app_nil_r. reflexivity.
Qed.

Lemma post_contact_eq (b : Body) (payload : ContactRequest) :
  validate w b = Some payload ->
  post_contact w b =
  match mail_config w with
  | None => (persistence_events w payload, ServerError500 ValueError)
  | Some c =>
      let _id := default Py.None_ (create_call_result w payload) in
      if configured c then
        if MIMEText_encodes w (html_body payload) then
          (persistence_events w payload
             ++ session_events w c (build_message payload c),
           Ok200 {| ok := true;
                    stored := Py.truthy _id;
                    email_sent := session_ok w c (build_message payload c);
                    result_message := THANKS |})
        else (persistence_events w payload, ServerError500 UnicodeEncodeError)
      else
        (persistence_events w payload,
         Ok200 {| ok := true;
                  stored := Py.truthy _id;
                  email_sent := false;
                  result_message := NOT_CONFIGURED |})
  end.
Proof.
  intros V. unfold post_contact. rewrite V, submit_contact_eq.
  destruct (mail_config w) as [c|]; [|reflexivity].
  cbn. destruct (configured c); [|reflexivity].
  destruct (MIMEText_encodes w (html_body payload)); reflexivity.
Qed.

End Stages.

(** ** What the traces contain *)

Lemma smtp_events_persistence (w : World) (payload : ContactRequest) :
  smtp_events (persistence_events w payload) = [].
Proof.
  unfold persistence_events.
  destruct (ContactMessage_accepts w _ _ _); reflexivity.
Qed.

Lemma connections_persistence (w : World) (payload : ContactRequest) :
  connections (persistence_events w payload) = [].
Proof.
  unfold persistence_events.
  destruct (ContactMessage_accepts w _ _ _); reflexivity.
Qed.

Lemma store_calls_persistence_le (w : World) (payload : ContactRequest) :
  (length (store_calls (persistence_events w payload)) <= 1)%nat.
Proof.
  unfold persistence_events.
  destruct (ContactMessage_accepts w _ _ _); cbn; lia.
Qed.

Lemma store_calls_session (w : World) (c : MailConfig) (msg : MIMEMultipart) :
  store_calls (session_events w c msg) = [].
Proof.
  unfold session_events.
  destruct (relay_connect w _ _); [|reflexivity].
  destruct (relay_starttls w); [|reflexivity].
  destruct (relay_login w _ _), (as_string_returns w msg); reflexivity.
Qed.

(** A session opens one connection, however far it gets. *)
Lemma connections_session (w : World) (c : MailConfig) (msg : MIMEMultipart) :
  connections (session_events w c msg)
  = [SMTPOpen (smtp_host c) (smtp_port c) SMTP_TIMEOUT].
Proof.
  unfold session_events.
  destruct (relay_connect w _ _); [|reflexivity].
  destruct (relay_starttls w); [|reflexivity].
  destruct (relay_login w _ _), (as_string_returns w msg); reflexivity.
Qed.

Lemma transmissions_session_le (w : World) (c : MailConfig) (msg : MIMEMultipart) :
  (length (transmissions (session_events w c msg)) <= 1)%nat.
Proof.
  unfold session_events.
  destruct (relay_connect w _ _); [|cbn; lia].
  destruct (relay_starttls w); [|cbn; lia].
  destruct (relay_login w _ _), (as_string_returns w msg); cbn; lia.
Qed.

Lemma transmissions_persistence (w : World) (payload : ContactRequest) :
  transmissions (persistence_events w payload) = [].
Proof.
  unfold persistence_events.
  destruct (ContactMessage_accepts w _ _ _); reflexivity.
Qed.

Lemma in_session_sendmail (w : World) (c : MailConfig) (msg : MIMEMultipart)
    (from : option string) (to : list (option string)) (m : MIMEMultipart) :
  In (Sendmail from to m) (session_events w c msg) ->
  from = smtp_from c /\ to = [smtp_to c] /\ m = msg.
Proof.
  unfold session_events.
  destruct (relay_connect w _ _); cbn; [|intuition discriminate].
  destruct (relay_starttls w); cbn; [|intuition discriminate].
  destruct (relay_login w _ _), (as_string_returns w msg); cbn;
    try (intuition discriminate).
  intros [H|[H|[H|[H|[H|[]]]]]]; try discriminate.
  injection H as <- <- <-. auto.
Qed.

Lemma session_sendmail_reached (w : World) (c : MailConfig) (msg : MIMEMultipart) :
  session_reaches_sendmail w c msg = true ->
  In (Sendmail (smtp_from c) [smtp_to c] msg) (session_events w c msg).
Proof.
  unfold session_reaches_sendmail, session_events.
  intros H. apply andb_true_iff in H as [H ->].
  apply andb_true_iff in H as [H ->].
  apply andb_true_iff in H as [-> ->]. cbn. auto.
Qed.

Lemma in_persistence_not_sendmail (w : World) (payload : ContactRequest)
    (from : option string) (to : list (option string)) (m : MIMEMultipart) :
  ~ In (Sendmail from to m) (persistence_events w payload).
Proof.
  unfold persistence_events.
  destruct (ContactMessage_accepts w _ _ _); cbn; intuition discriminate.
Qed.

Lemma secured_first_session (w : World) (c : MailConfig) (msg : MIMEMultipart) :
  secured_first false (session_events w c msg) = true.
Proof.
  unfold session_events.
  destruct (relay_connect w _ _); [|reflexivity].
  destruct (relay_starttls w); [|reflexivity].
  destruct (relay_login w _ _), (as_string_returns w msg); reflexivity.
Qed.

Lemma secured_first_app (t1 t2 : list Event) (s : bool) :
  smtp_events t1 = [] ->
  secured_first s (t1 ++ t2) = secured_first s t2.
Proof.
  induction t1 as [|ev t1 IH]; intros H; [reflexivity|].
  destruct ev; cbn in H; try discriminate. cbn. apply IH. exact H.
Qed.

(** What [secured_first] checks: whatever precedes a login or a
    transmission contains a [StartTLS] (or one was seen before). *)
Lemma secured_first_sound (t : list Event) :
  forall (s : bool) (pre post : list Event) (ev : Event),
    secured_first s t = true ->
    t = pre ++ ev :: post ->
    sends_credentials_or_mail ev = true ->
    s = true \/ In StartTLS pre.
Proof.
  induction t as [|x t IH]; intros s pre post ev Hs Ht Hev.
  - destruct pre; discriminate.
  - destruct pre as [|y pre]; cbn in Ht; injection Ht as -> ->.
    + destruct ev; try discriminate; cbn in Hs;
        apply andb_true_iff in Hs as [Hs _]; auto.
    + destruct y; cbn in Hs.
      * destruct (IH s pre post ev Hs eq_refl Hev); [auto|right; right; auto].
      * destruct (IH s pre post ev Hs eq_refl Hev); [auto|right; right; auto].
      * right. left. reflexivity.
      * apply andb_true_iff in Hs as [-> _]. auto.
      * apply andb_true_iff in Hs as [-> _]. auto.
      * destruct (IH s pre post ev Hs eq_refl Hev); [auto|right; right; auto].
Qed.

Lemma delivery_attempted_connections (t : list Event) :
  delivery_attempted t = true <-> connections t <> [].
Proof.
  unfold delivery_attempted, connections.
  induction t as [|ev t IH]; cbn.
  - split; [discriminate|congruence].
  - destruct (is_connection ev); cbn; [split; [discriminate|auto]|exact IH].
Qed.

Lemma connections_app (t1 t2 : list Event) :
  connections (t1 ++ t2) = connections t1 ++ connections t2.
Proof. apply List.filter_app. Qed.

Lemma store_calls_app (t1 t2 : list Event) :
  store_calls (t1 ++ t2) = store_calls t1 ++ store_calls t2.
Proof. apply List.filter_app. Qed.

Lemma smtp_events_app (t1 t2 : list Event) :
  smtp_events (t1 ++ t2) = smtp_events t1 ++ smtp_events t2.
Proof. apply List.filter_app. Qed.

(** ** The condition of line 92 *)

Lemma configured_false_iff (c : MailConfig) :
  configured c = false <-> missing_one c.
Proof.
  unfold configured, missing_one.
  rewrite !andb_false_iff, negb_false_iff, Z.eqb_eq. tauto.
Qed.

Lemma configured_true_iff (c : MailConfig) :
  configured c = true <->
  Py.truthy_str (smtp_host c) = true /\ smtp_port c <> 0
  /\ Py.truthy_str (smtp_user c) = true /\ Py.truthy_str (smtp_pass c) = true
  /\ Py.truthy_str (smtp_from c) = true /\ Py.truthy_str (smtp_to c) = true.
Proof.
  unfold configured.
  rewrite !andb_true_iff, negb_true_iff, Z.eqb_neq. tauto.
Qed.

Lemma truthy_str_iff (o : option string) :
  Py.truthy_str o = true <-> exists s, o = Some s /\ s <> "".
Proof.
  destruct o as [s|]; cbn.
  - rewrite negb_true_iff, String.eqb_neq. split.
    + intros H. exists s. auto.
    + intros (s' & [= <-] & H). exact H.
  - split; [discriminate|intros (s & H & _); discriminate].
Qed.

Lemma messages_differ : THANKS <> NOT_CONFIGURED.
Proof. discriminate. Qed.

(** ** Strings: [replace] and the lines of a message *)

Lemma append_cons (c : ascii) (s t : string) :
  String c s +:+ t = String c (s +:+ t).
Proof. reflexivity. Qed.

Lemma append_assoc (s t u : string) : (s +:+ t) +:+ u = s +:+ (t +:+ u).
Proof.
  induction s as [|c s IH]; [reflexivity|].
  rewrite !append_cons, IH. reflexivity.
Qed.

Lemma append_empty_r (s : string) : s +:+ "" = s.
Proof.
  induction s as [|c s IH]; [reflexivity|].
  rewrite append_cons, IH. reflexivity.
Qed.

Lemma list_ascii_append (s t : string) :
  list_ascii_of_string (s +:+ t)
  = list_ascii_of_string s ++ list_ascii_of_string t.
Proof.
  induction s as [|c s IH]; [reflexivity|].
  rewrite append_cons. cbn. rewrite IH. reflexivity.
Qed.

Lemma replace_cons_newline (new s : string) :
  Py.replace newline new (String newline s) = new +:+ Py.replace newline new s.
Proof. reflexivity. Qed.

Lemma replace_cons_other (c : ascii) (new s : string) :
  c <> newline ->
  Py.replace newline new (String c s) = String c (Py.replace newline new s).
Proof.
  intros H. cbn [Py.replace].
  destruct (Ascii.eqb_spec c newline); [contradiction|reflexivity].
Qed.

(** [replace] works through a concatenation piece by piece. *)
Lemma replace_append (new s t : string) :
  Py.replace newline new (s +:+ t)
  = Py.replace newline new s +:+ Py.replace newline new t.
Proof.
  induction s as [|c s IH]; [reflexivity|].
  rewrite append_cons.
  destruct (Ascii.eqb_spec c newline) as [->|Hc].
  - rewrite !replace_cons_newline, IH, append_assoc. reflexivity.
  - rewrite !replace_cons_other, IH by exact Hc. reflexivity.
Qed.

(** No line feed is left after the replacement by ["<br/>"]. *)
Lemma replace_no_newline (s : string) :
  no_newline (Py.replace newline "<br/>" s).
Proof.
  unfold no_newline. induction s as [|c s IH]; [intros []|].
  destruct (Ascii.eqb_spec c newline) as [->|Hc].
  - rewrite replace_cons_newline, list_ascii_append.
    intros H. apply in_app_or in H as [H|H]; [|exact (IH H)].
    cbn in H. intuition discriminate.
  - rewrite replace_cons_other by exact Hc. cbn.
    intros [H|H]; [congruence|exact (IH H)].
Qed.

(** A message without line feeds goes into the body as it is. *)
Lemma replace_without_newline (new s : string) :
  no_newline s -> Py.replace newline new s = s.
Proof.
  unfold no_newline. induction s as [|c s IH]; intros H; [reflexivity|].
  cbn in H. rewrite replace_cons_other by (intros ->; apply H; auto).
  rewrite IH by auto. reflexivity.
Qed.

Lemma split_lines_nonempty (s : string) : split_lines s <> [].
Proof.
  induction s as [|c s IH]; cbn; [discriminate|].
  destruct (Ascii.eqb c newline); [discriminate|].
  destruct (split_lines s); discriminate.
Qed.

Lemma join_cons_char (sep : string) (c : ascii) (l : string) (ls : list string) :
  join sep (String c l :: ls) = String c (join sep (l :: ls)).
Proof. destruct ls; reflexivity. Qed.

Lemma join_cons_empty (sep : string) (ls : list string) :
  ls <> [] -> join sep ("" :: ls) = sep +:+ join sep ls.
Proof. destruct ls; [congruence|reflexivity]. Qed.

(** The lines of a message, joined by line feeds, are the message. *)
Lemma join_split_lines (s : string) :
  join (String newline "") (split_lines s) = s.
Proof.
  induction s as [|c s IH]; [reflexivity|].
  cbn [split_lines]. destruct (Ascii.eqb_spec c newline) as [->|Hc].
  - rewrite join_cons_empty by apply split_lines_nonempty.
    rewrite IH. reflexivity.
  - pose proof (split_lines_nonempty s) as Hne.
    destruct (split_lines s) as [|l ls]; [congruence|].
    rewrite join_cons_char, IH. reflexivity.
Qed.

Lemma split_lines_no_newline (s : string) :
  Forall no_newline (split_lines s).
Proof.
  induction s as [|c s IH]; cbn [split_lines].
  - constructor; [intros []|constructor].
  - destruct (Ascii.eqb_spec c newline) as [->|Hc].
    + constructor; [intros []|exact IH].
    + pose proof (split_lines_nonempty s) as Hne.
      destruct (split_lines s) as [|l ls]; [congruence|].
      inversion IH as [|? ? Hl Hls]; subst.
      constructor; [|exact Hls].
      unfold no_newline in *. cbn. intros [H|H]; [congruence|exact (Hl H)].
Qed.

(** The replacement joins the lines of the message by ["<br/>"] where they
    were joined by line feeds. *)
Lemma replace_join_lines (s : string) :
  Py.replace newline "<br/>" s = join "<br/>" (split_lines s).
Proof.
  induction s as [|c s IH]; [reflexivity|].
  cbn [split_lines]. destruct (Ascii.eqb_spec c newline) as [->|Hc].
  - rewrite replace_cons_newline, IH.
    rewrite join_cons_empty by apply split_lines_nonempty. reflexivity.
  - rewrite replace_cons_other by exact Hc.
    pose proof (split_lines_nonempty s) as Hne.
    destruct (split_lines s) as [|l ls]; [congruence|].
    rewrite join_cons_char, IH. reflexivity.
Qed.

Lemma substring_of_here (sub post : string) : substring_of sub (sub +:+ post).
Proof. exists "", post. reflexivity. Qed.

Lemma substring_of_later (sub pre s : string) :
  substring_of sub s -> substring_of sub (pre +:+ s).
Proof.
  intros (a & b & ->). exists (pre +:+ a), b.
  rewrite append_assoc. reflexivity.
Qed.

(** The body holds the name, the address and the message after
    replacement. *)
Lemma html_body_contains (payload : ContactRequest) :
  substring_of (name payload) (html_body payload)
  /\ substring_of (email payload) (html_body payload)
  /\ substring_of (Py.replace newline "<br/>" (message payload))
       (html_body payload).
Proof.
  unfold html_body. repeat split.
  - do 2 apply substring_of_later. apply substring_of_here.
  - do 5 apply substring_of_later. apply substring_of_here.
  - do 8 apply substring_of_later. apply substring_of_here.
Qed.

(** ** When the request fails *)


Lemma post_contact_returns (w : World) (b : Body) (payload : ContactRequest)
    (c : MailConfig) :
  validate w b = Some payload ->
  mail_config w = Some c ->
  (configured c = true -> MIMEText_encodes w (html_body payload) = true) ->
  exists r, snd (post_contact w b) = Ok200 r.
Proof.
  intros V E T. rewrite (post_contact_eq w b payload V), E. cbn.
  destruct (configured c); cbn; [|eauto].
  rewrite T by reflexivity. cbn. eauto.
Qed.

(** The handler runs only on a validated body. *)
Lemma post_contact_422_iff (w : World) (b : Body) :
  snd (post_contact w b) = Unprocessable422 <-> EmailStr w (body_email b) = None.
Proof.
  unfold post_contact, validate.
  destruct (EmailStr w (body_email b)) as [e|]; cbn.
  - destruct (submit_contact w _) as [t [e'|r]]; cbn; split; discriminate.
  - split; reflexivity.
Qed.

(** At most one store write and at most one connection per request. *)
Lemma at_most_one_of_each (w : World) (b : Body) :
  (length (store_calls (fst (post_contact w b))) <= 1)%nat
  /\ (length (connections (fst (post_contact w b))) <= 1)%nat.
Proof.
  destruct (validate w b) as [payload|] eqn:V.
  - rewrite (post_contact_eq w b payload V).
    destruct (mail_config w) as [c|]; cbn.
    + destruct (configured c); cbn;
        [destruct (MIMEText_encodes w (html_body payload)); cbn|].
      * rewrite store_calls_app, connections_app, store_calls_session,
          connections_persistence, connections_session, app_nil_r.
        split; [apply store_calls_persistence_le|cbn; lia].
      * rewrite connections_persistence.
        split; [apply store_calls_persistence_le|cbn; lia].
      * rewrite connections_persistence.
        split; [apply store_calls_persistence_le|cbn; lia].
    + rewrite connections_persistence.
      split; [apply store_calls_persistence_le|cbn; lia].
  - unfold post_contact. rewrite V. cbn. lia.
Qed.

(** ** The two scenarios of the specification *)

Example scenario_nothing_set :
  post_contact (sample_world (list_to_map []) None false) ada
  = ([CreateDocument "contactmessage"
        {| doc_name := "Ada"; doc_email := "ada@example.com";
           doc_message := "Hi" +:+ String newline "there" |}],
     Ok200 {| ok := true; stored := false; email_sent := false;
              result_message := NOT_CONFIGURED |}).
Proof. vm_compute. reflexivity. Qed.

Example scenario_all_set :
  snd (post_contact
         (sample_world (<["SMTP_PORT" := "2525"]>
                          (<["SMTP_FROM" := "shop@example.com"]> smtp_env))
            (Some (Py.Str "65f0")) true) ada)
  = Ok200 {| ok := true; stored := true; email_sent := true;
             result_message := THANKS |}.
Proof. vm_compute. reflexivity. Qed.

(** A message with a lone surrogate (U+D800, bytes ED A0 80): the store
    is called, the six values are there, then [MIMEText] raises at line
    113, outside every [try], and the request ends in a 500 without a
    connection. *)
Example lone_surrogate_escapes :
  post_contact (sample_world smtp_env (Some (Py.Str "65f0")) true)
    {| body_name := "Ada"; body_email := "ada@example.com";
       body_message := String "237" (String "160" (String "128" "")) |}
  = ([CreateDocument "contactmessage"
        {| doc_name := "Ada"; doc_email := "ada@example.com";
           doc_message := String "237" (String "160" (String "128" "")) |}],
     ServerError500 UnicodeEncodeError).
Proof. vm_compute. reflexivity. Qed.

(** A name with a line feed: [as_string] raises inside the [with] block
    before [sendmail] is called; nothing is handed to the relay, the
    connection is closed and the response has [email_sent = false]. *)
Example line_feed_in_name_is_not_sent :
  post_contact (sample_world smtp_env None true)
    {| body_name := "Ada" +:+ String newline "Bcc: x@example.com";
       body_email := "ada@example.com"; body_message := "Hi" |}
  = ([CreateDocument "contactmessage"
        {| doc_name := "Ada" +:+ String newline "Bcc: x@example.com";
           doc_email := "ada@example.com"; doc_message := "Hi" |};
      SMTPOpen (Some "smtp.example.com") 587 15;
      StartTLS;
      Login (Some "bot@example.com") (Some "hunter2");
      Quit],
     Ok200 {| ok := true; stored := false; email_sent := false;
              result_message := THANKS |}).
Proof. vm_compute. reflexivity. Qed.

Example int_samples :
  Py.int "587" = Some 587 /\ Py.int " 25 " = Some 25
  /\ Py.int "1_000" = Some 1000 /\ Py.int "-12" = Some (-12)
  /\ Py.int "" = None /\ Py.int "abc" = None /\ Py.int "1__0" = None
  /\ Py.int "+ 5" = None /\ Py.int "58 7" = None.
Proof. repeat split; reflexivity. Qed.

(** ** The claims *)

(** C1. A body whose [email] pydantic rejects is answered with 422, and
    nothing is done: the trace is empty, so there is no call to the
    document store and no connection to the mail relay. *)
Theorem invalid_email_rejected_without_effects (w : World) (b : Body) :
  EmailStr w (body_email b) = None ->
  post_contact w b = ([], Unprocessable422)
  /\ store_calls (fst (post_contact w b)) = []
  /\ connections (fst (post_contact w b)) = [].
Proof.
  intros H. unfold post_contact, validate. rewrite H. auto.
Qed.

Lemma invalid_email_rejected_without_effects_witness :
  EmailStr (sample_world smtp_env (Some (Py.Str "65f0")) true)
    (body_email not_an_address) = None
  /\ post_contact (sample_world smtp_env (Some (Py.Str "65f0")) true)
       not_an_address = ([], Unprocessable422).
Proof.
  split; [reflexivity|].
  apply (invalid_email_rejected_without_effects
           (sample_world smtp_env (Some (Py.Str "65f0")) true) not_an_address).
  reflexivity.
Defined.

(** C2. For a body that passes validation, every response the handler
    returns has [ok = true], whatever the store, the configuration and the
    relay do; and a response is returned whenever the port setting reads
    as an integer and, if the six values are all there, [MIMEText] can
    encode the body. *)
Theorem response_ok_is_true (w : World) (b : Body) (payload : ContactRequest) :
  validate w b = Some payload ->
  (forall r, snd (post_contact w b) = Ok200 r -> ok r = true)
  /\ (forall c, mail_config w = Some c ->
      (configured c = true -> MIMEText_encodes w (html_body payload) = true) ->
      exists r, snd (post_contact w b) = Ok200 r /\ ok r = true).
Proof.
  intros V.
  assert (A : forall r, snd (post_contact w b) = Ok200 r -> ok r = true).
  { intros r. rewrite (post_contact_eq w b payload V).
    destruct (mail_config w) as [c|]; cbn; [|discriminate].
    destruct (configured c); cbn;
      [destruct (MIMEText_encodes w (html_body payload)); cbn|];
      try discriminate; intros [= <-]; reflexivity. }
  split; [exact A|].
  intros c E T. destruct (post_contact_returns w b payload c V E T) as (r & Hr).
  exists r. split; [exact Hr|exact (A r Hr)].
Qed.

Lemma response_ok_is_true_witness :
  validate (sample_world smtp_env None false) ada = Some ada_request
  /\ exists r, snd (post_contact (sample_world smtp_env None false) ada) = Ok200 r
               /\ ok r = true.
Proof.
  split; [reflexivity|].
  apply (proj2 (response_ok_is_true (sample_world smtp_env None false) ada
                  ada_request eq_refl) smtp_config).
  - vm_compute. reflexivity.
  - intros _. vm_compute. reflexivity.
Defined.



(** C4. With [SMTP_PORT=abc], and likewise with an empty [SMTP_PORT],
    the handler does not return: the store call is made, then [int]
    raises [ValueError] at line 86, outside every [try], and the request
    ends in a 500 although the address was valid, the store answered and
    the relay was up. *)
Theorem unparsable_port_escapes :
  validate (sample_world (<["SMTP_PORT" := "abc"]> smtp_env)
              (Some (Py.Str "65f0")) true) ada = Some ada_request
  /\ post_contact (sample_world (<["SMTP_PORT" := "abc"]> smtp_env)
                     (Some (Py.Str "65f0")) true) ada
     = ([CreateDocument "contactmessage"
           {| doc_name := "Ada"; doc_email := "ada@example.com";
              doc_message := "Hi" +:+ String newline "there" |}],
        ServerError500 ValueError)
  /\ post_contact (sample_world (<["SMTP_PORT" := ""]> smtp_env)
                     (Some (Py.Str "65f0")) true) ada
     = ([CreateDocument "contactmessage"
           {| doc_name := "Ada"; doc_email := "ada@example.com";
              doc_message := "Hi" +:+ String newline "there" |}],
        ServerError500 ValueError).
Proof. repeat split; vm_compute; reflexivity. Qed.

(** C5. A missing value does not always give the not-configured
    response.  With [SMTP_PORT] set to the empty string the port is
    missing, and with only [SMTP_PORT=abc] set the host, the user, the
    password, the sender and the recipient are: in both cases [int]
    raises at line 86 before line 92 is reached and the request ends in a
    500, where the claim has the not-configured response. *)
Theorem missing_value_escapes :
  spec_non_empty
    (spec_fallback
       (getenv (sample_world (<["SMTP_PORT" := ""]> smtp_env) None false)
          "SMTP_PORT") (Some "587")) = false
  /\ post_contact (sample_world (<["SMTP_PORT" := ""]> smtp_env) None false) ada
     = ([CreateDocument "contactmessage"
           {| doc_name := "Ada"; doc_email := "ada@example.com";
              doc_message := "Hi" +:+ String newline "there" |}],
        ServerError500 ValueError)
  /\ spec_non_empty
       (getenv (sample_world (list_to_map [("SMTP_PORT", "abc")]) None false)
          "SMTP_HOST") = false
  /\ post_contact
       (sample_world (list_to_map [("SMTP_PORT", "abc")]) None false) ada
     = ([CreateDocument "contactmessage"
           {| doc_name := "Ada"; doc_email := "ada@example.com";
              doc_message := "Hi" +:+ String newline "there" |}],
        ServerError500 ValueError).
Proof. repeat split; vm_compute; reflexivity. Qed.

(** X18. When lines 85-90 run through and one of the six values they
    compute is missing ([None], the empty string, or the port 0), the
    response has [email_sent = false] and the not-configured message, and
    the trace holds no SMTP event at all: the handler returns at line 94
    before a message is built or a connection opened. *)
Theorem missing_value_not_configured (w : World) (b : Body)
    (payload : ContactRequest) (c : MailConfig) :
  validate w b = Some payload ->
  mail_config w = Some c ->
  missing_one c ->
  exists t r,
    post_contact w b = (t, Ok200 r)
    /\ email_sent r = false
    /\ result_message r
       = "Contact saved. Email service not configured on server. Please set SMTP environment variables to enable email sending."
    /\ smtp_events t = []
    /\ connections t = [].
Proof.
  intros V E Hm. apply configured_false_iff in Hm.
  rewrite (post_contact_eq w b payload V), E. cbn. rewrite Hm.
  eexists _, _. split; [reflexivity|]. cbn.
  split; [reflexivity|]. split; [reflexivity|].
  split; [apply smtp_events_persistence|apply connections_persistence].
Qed.

Lemma missing_value_not_configured_witness :
  validate (sample_world (delete "SMTP_PASS" smtp_env) (Some (Py.Str "65f0")) true)
    ada = Some ada_request
  /\ mail_config (sample_world (delete "SMTP_PASS" smtp_env)
                    (Some (Py.Str "65f0")) true)
     = Some {| smtp_host := Some "smtp.example.com"; smtp_port := 587;
               smtp_user := Some "bot@example.com"; smtp_pass := None;
               smtp_from := Some "bot@example.com";
               smtp_to := Some "owner@example.com" |}
  /\ exists t r,
      post_contact (sample_world (delete "SMTP_PASS" smtp_env)
                      (Some (Py.Str "65f0")) true) ada = (t, Ok200 r)
      /\ email_sent r = false
      /\ result_message r = NOT_CONFIGURED
      /\ smtp_events t = []
      /\ connections t = [].
Proof.
  split; [reflexivity|]. split; [vm_compute; reflexivity|].
  apply (missing_value_not_configured
           (sample_world (delete "SMTP_PASS" smtp_env) (Some (Py.Str "65f0")) true)
           ada ada_request
           {| smtp_host := Some "smtp.example.com"; smtp_port := 587;
              smtp_user := Some "bot@example.com"; smtp_pass := None;
              smtp_from := Some "bot@example.com";
              smtp_to := Some "owner@example.com" |}).
  - reflexivity.
  - vm_compute; reflexivity.
  - unfold missing_one. cbn. auto.
Defined.

(** The wording of the configuration rule and line 92 agree away from
    two places, the port 0 and a variable set to the empty string: when
    [MIMEText] can encode the body,
    the port setting reads as an integer other than 0 and neither
    SMTP_FROM nor SMTP_TO is set to the empty string, delivery is
    attempted exactly when the six values of the specification are all
    there. *)
Lemma spec_fallback_or (a b : option string) :
  a <> Some "" -> spec_fallback a b = Py.or_ a b.
Proof.
  intros H. destruct a as [s|]; [|reflexivity].
  unfold Py.or_. cbn. destruct (String.eqb_spec s ""); [congruence|reflexivity].
Qed.

Lemma int_empty : Py.int "" = None.
Proof. reflexivity. Qed.

Lemma spec_rule_agrees (w : World) (b : Body) (payload : ContactRequest) (p : Z) :
  validate w b = Some payload ->
  MIMEText_encodes w (html_body payload) = true ->
  Py.int (port_setting w) = Some p ->
  p <> 0 ->
  getenv w "SMTP_FROM" <> Some "" ->
  getenv w "SMTP_TO" <> Some "" ->
  delivery_attempted (fst (post_contact w b)) = true
  <-> spec_all_non_empty w = true.
Proof.
  intros V T P Hp Hf Ht.
  rewrite (post_contact_eq w b payload V), T.
  destruct (prepare_email_cases w)
    as [(_ & _ & N)|(c & _ & -> & Hc & Hh & Hu & Hpw & Hcf & Hct)];
    [congruence|].
  assert (Hport : spec_non_empty
                    (spec_fallback (getenv w "SMTP_PORT") (Some "587")) = true).
  { unfold port_setting, getenv_default in P. unfold getenv.
    destruct (environ w !! "SMTP_PORT") as [s|]; [|reflexivity].
    cbn in *. destruct (String.eqb_spec s "") as [->|]; [|reflexivity].
    rewrite int_empty in P. discriminate. }
  assert (S : spec_all_non_empty w = configured c).
  { unfold spec_all_non_empty, spec_effective_values, configured.
    cbn [forallb]. rewrite Hport, !spec_fallback_or by assumption.
    rewrite <- Hcf, <- Hct, <- Hh, <- Hu, <- Hpw.
    assert ((smtp_port c =? 0) = false) as -> by (apply Z.eqb_neq; congruence).
    change spec_non_empty with Py.truthy_str. cbn.
    rewrite ?andb_true_r, ?andb_assoc. reflexivity. }
  rewrite S. cbn. destruct (configured c); cbn.
  - rewrite delivery_attempted_connections, connections_app,
      connections_persistence, connections_session.
    split; [reflexivity|discriminate].
  - rewrite delivery_attempted_connections, connections_persistence.
    split; [congruence|discriminate].
Qed.

(** With SMTP_FROM set to the empty string the specification has an
    empty sender, while [or] at line 89 takes SMTP_USER, and the mail
    goes out. *)
Example empty_from_falls_back :
  spec_all_non_empty (sample_world (<["SMTP_FROM" := ""]> smtp_env)
                        (Some (Py.Str "65f0")) true) = false
  /\ mail_config (sample_world (<["SMTP_FROM" := ""]> smtp_env)
                    (Some (Py.Str "65f0")) true) = Some smtp_config
  /\ delivery_attempted
       (fst (post_contact (sample_world (<["SMTP_FROM" := ""]> smtp_env)
                             (Some (Py.Str "65f0")) true) ada)) = true.
Proof. repeat split; vm_compute; reflexivity. Qed.

(** C6, as the specification words it, fails: with [SMTP_PORT=0] the six
    values of the specification are all there and not empty (the port
    is the string ["0"]), yet line 92 counts the integer 0 as missing and
    no connection is made. *)
Lemma port_zero_is_not_attempted :
  validate (sample_world (<["SMTP_PORT" := "0"]> smtp_env)
              (Some (Py.Str "65f0")) true) ada = Some ada_request
  /\ spec_all_non_empty (sample_world (<["SMTP_PORT" := "0"]> smtp_env)
                           (Some (Py.Str "65f0")) true) = true
  /\ delivery_attempted
       (fst (post_contact (sample_world (<["SMTP_PORT" := "0"]> smtp_env)
                             (Some (Py.Str "65f0")) true) ada)) = false
  /\ ~ (delivery_attempted
          (fst (post_contact (sample_world (<["SMTP_PORT" := "0"]> smtp_env)
                                (Some (Py.Str "65f0")) true) ada)) = true
        <-> spec_all_non_empty (sample_world (<["SMTP_PORT" := "0"]> smtp_env)
                                  (Some (Py.Str "65f0")) true) = true).
Proof.
  split; [reflexivity|]. split; [vm_compute; reflexivity|].
  split; [vm_compute; reflexivity|].
  intros [_ H]. assert (A : false = true); [|discriminate A].
  rewrite <- H; vm_compute; reflexivity.
Qed.

(** C6, amended.  When [MIMEText] can encode the body and the port
    setting reads as the integer [p] (it is 587 when SMTP_PORT is
    unset), delivery is attempted exactly when the
    host, the user and the password are set and not empty, [p] is not 0,
    and the sender and the recipient are not empty, the sender being
    SMTP_FROM, or SMTP_USER when SMTP_FROM is unset or empty, and the
    recipient SMTP_TO, or CONTACT_RECIPIENT when SMTP_TO is unset or
    empty. *)
Theorem delivery_attempted_iff_configured (w : World) (b : Body)
    (payload : ContactRequest) (p : Z) :
  validate w b = Some payload ->
  MIMEText_encodes w (html_body payload) = true ->
  Py.int (port_setting w) = Some p ->
  (getenv w "SMTP_PORT" = None -> p = 587)
  /\ (delivery_attempted (fst (post_contact w b)) = true
      <-> Py.truthy_str (getenv w "SMTP_HOST") = true
          /\ p <> 0
          /\ Py.truthy_str (getenv w "SMTP_USER") = true
          /\ Py.truthy_str (getenv w "SMTP_PASS") = true
          /\ Py.truthy_str
               (Py.or_ (getenv w "SMTP_FROM") (getenv w "SMTP_USER")) = true
          /\ Py.truthy_str
               (Py.or_ (getenv w "SMTP_TO") (getenv w "CONTACT_RECIPIENT")) = true).
Proof.
  intros V T P. split.
  - intros U. unfold port_setting, getenv_default in P.
    unfold getenv in U. rewrite U in P. cbn in P.
    vm_compute in P. congruence.
  - rewrite (post_contact_eq w b payload V), T.
    destruct (prepare_email_cases w)
      as [(_ & _ & N)|(c & _ & -> & Hp & Hh & Hu & Hpw & Hf & Ht)];
      [congruence|].
    assert (smtp_port c = p) as <- by congruence.
    rewrite <- Hf, <- Ht, <- Hh, <- Hu, <- Hpw, <- configured_true_iff.
    cbn. destruct (configured c); cbn.
    + rewrite delivery_attempted_connections, connections_app,
        connections_persistence, connections_session.
      split; [reflexivity|discriminate].
    + rewrite delivery_attempted_connections, connections_persistence.
      split; [congruence|discriminate].
Qed.

Lemma delivery_attempted_iff_configured_witness :
  validate (sample_world smtp_env (Some (Py.Str "65f0")) true) ada
  = Some ada_request
  /\ MIMEText_encodes (sample_world smtp_env (Some (Py.Str "65f0")) true)
       (html_body ada_request) = true
  /\ Py.int (port_setting (sample_world smtp_env (Some (Py.Str "65f0")) true))
     = Some 587
  /\ delivery_attempted
       (fst (post_contact (sample_world smtp_env (Some (Py.Str "65f0")) true) ada))
     = true.
Proof.
  split; [reflexivity|]. split; [reflexivity|].
  split; [vm_compute; reflexivity|].
  apply (proj2 (delivery_attempted_iff_configured
                  (sample_world smtp_env (Some (Py.Str "65f0")) true)
                  ada ada_request 587 eq_refl eq_refl eq_refl)).
  vm_compute. repeat split; discriminate.
Defined.

(** An SMTP event in the trace comes from the session of a request that
    passed validation, with the six values there and the message
    built. *)
Lemma session_was_run (w : World) (b : Body) (ev : Event) :
  In ev (fst (post_contact w b)) ->
  is_smtp ev = true ->
  exists payload c,
    validate w b = Some payload /\ mail_config w = Some c
    /\ configured c = true
    /\ MIMEText_encodes w (html_body payload) = true
    /\ In ev (session_events w c (build_message payload c)).
Proof.
  intros H Hev.
  assert (P : forall payload, ~ In ev (persistence_events w payload)).
  { intros payload Hp. unfold persistence_events in Hp.
    destruct (ContactMessage_accepts w _ _ _); [|destruct Hp].
    destruct Hp as [<-|[]]. discriminate. }
  destruct (validate w b) as [payload|] eqn:V.
  - rewrite (post_contact_eq w b payload V) in H.
    destruct (mail_config w) as [c|] eqn:E; cbn in H;
      [|destruct (P payload H)].
    destruct (configured c) eqn:C; cbn in H; [|destruct (P payload H)].
    destruct (MIMEText_encodes w (html_body payload)) eqn:T; cbn in H;
      [|destruct (P payload H)].
    exists payload, c. repeat split; try assumption.
    apply in_app_or in H as [H|H]; [destruct (P payload H)|exact H].
  - unfold post_contact in H. rewrite V in H. destruct H.
Qed.


(** C7. With the six values there and an SMTP session that is run (a
    connection is opened) and raises (at the connection, at STARTTLS, at
    the login, at the
    serialisation of the message, at the transmission or at the closing
    QUIT), the response has [email_sent = false] and the thanks message,
    not the not-configured one; the trace holds one connection and at
    most one transmission: nothing is tried again. *)
Theorem relay_failure_keeps_thanks (w : World) (b : Body)
    (payload : ContactRequest) (c : MailConfig) :
  validate w b = Some payload ->
  mail_config w = Some c ->
  configured c = true ->
  In (SMTPOpen (smtp_host c) (smtp_port c) SMTP_TIMEOUT)
     (fst (post_contact w b)) ->
  session_ok w c (build_message payload c) = false ->
  exists t r,
    post_contact w b = (t, Ok200 r)
    /\ email_sent r = false
    /\ result_message r
       = "Thanks! Your message has been received. We'll get back to you shortly."
    /\ result_message r <> NOT_CONFIGURED
    /\ connections t = [SMTPOpen (smtp_host c) (smtp_port c) SMTP_TIMEOUT]
    /\ (length (transmissions t) <= 1)%nat.
Proof.
  intros V E C O F.
  destruct (session_was_run w b _ O eq_refl) as (payload' & _ & V' & _ & _ & T & _).
  assert (payload' = payload) as -> by congruence.
  rewrite (post_contact_eq w b payload V), E. cbn.
  rewrite C, T, F. eexists _, _. split; [reflexivity|]. cbn.
  split; [reflexivity|]. split; [reflexivity|].
  split; [exact messages_differ|].
  unfold transmissions.
  rewrite connections_app, connections_persistence, connections_session,
    List.filter_app.
  fold (transmissions (persistence_events w payload)).
  rewrite transmissions_persistence.
  split; [reflexivity|apply transmissions_session_le].
Qed.

Lemma relay_failure_keeps_thanks_witness :
  validate (sample_world smtp_env (Some (Py.Str "65f0")) false) ada
  = Some ada_request
  /\ mail_config (sample_world smtp_env (Some (Py.Str "65f0")) false)
     = Some smtp_config
  /\ configured smtp_config = true
  /\ In (SMTPOpen (Some "smtp.example.com") 587 15)
        (fst (post_contact (sample_world smtp_env (Some (Py.Str "65f0")) false)
                ada))
  /\ session_ok (sample_world smtp_env (Some (Py.Str "65f0")) false)
       smtp_config (build_message ada_request smtp_config) = false
  /\ exists t r,
      post_contact (sample_world smtp_env (Some (Py.Str "65f0")) false) ada
      = (t, Ok200 r)
      /\ email_sent r = false
      /\ result_message r = THANKS
      /\ result_message r <> NOT_CONFIGURED
      /\ connections t = [SMTPOpen (Some "smtp.example.com") 587 15]
      /\ (length (transmissions t) <= 1)%nat.
Proof.
  split; [reflexivity|]. split; [vm_compute; reflexivity|].
  split; [reflexivity|]. split; [vm_compute; auto|]. split; [reflexivity|].
  apply (relay_failure_keeps_thanks
           (sample_world smtp_env (Some (Py.Str "65f0")) false)
           ada ada_request smtp_config);
    vm_compute; auto.
Defined.



(** C9. With the six values there, every message handed to the relay
    carries one part, of type html, whose text is the body of lines
    102-107; that body contains the name, the address, and the message
    with its lines joined by ["<br/>"] instead of line feeds, so that no
    line feed of the message is left; whatever precedes a login or a
    transmission in the trace contains the STARTTLS; and the message is
    handed over when [MIMEText] has encoded the body, the relay lets the
    session get as far as the login and [as_string] returns. *)
Theorem delivered_message_is_html_body (w : World) (b : Body)
    (payload : ContactRequest) (c : MailConfig) :
  validate w b = Some payload ->
  mail_config w = Some c ->
  configured c = true ->
  (forall from to msg,
      In (Sendmail from to msg) (fst (post_contact w b)) ->
      parts msg = [{| text := html_body payload; subtype := "html" |}])
  /\ substring_of (name payload) (html_body payload)
  /\ substring_of (email payload) (html_body payload)
  /\ substring_of (join "<br/>" (split_lines (message payload)))
       (html_body payload)
  /\ join (String newline "") (split_lines (message payload)) = message payload
  /\ Forall no_newline (split_lines (message payload))
  /\ no_newline (join "<br/>" (split_lines (message payload)))
  /\ (forall pre ev post,
        fst (post_contact w b) = pre ++ ev :: post ->
        sends_credentials_or_mail ev = true ->
        In StartTLS pre)
  /\ (MIMEText_encodes w (html_body payload) = true ->
      session_reaches_sendmail w c (build_message payload c) = true ->
      In (Sendmail (smtp_from c) [smtp_to c] (build_message payload c))
         (fst (post_contact w b))).
Proof.
  intros V E C. rewrite (post_contact_eq w b payload V), E. cbn. rewrite C.
  rewrite <- replace_join_lines.
  destruct (html_body_contains payload) as (Hn & He & Hm).
  assert (S : secured_first false
                (persistence_events w payload
                   ++ session_events w c (build_message payload c)) = true).
  { rewrite secured_first_app by apply smtp_events_persistence.
    apply secured_first_session. }
  assert (S0 : secured_first false (persistence_events w payload) = true).
  { rewrite <- (app_nil_r (persistence_events w payload)).
    rewrite secured_first_app by apply smtp_events_persistence. reflexivity. }
  split.
  { destruct (MIMEText_encodes w (html_body payload)); cbn;
      intros from to msg H.
    - apply in_app_or in H as [H|H].
      + destruct (in_persistence_not_sendmail _ _ _ _ _ H).
      + apply in_session_sendmail in H as (_ & _ & ->). reflexivity.
    - destruct (in_persistence_not_sendmail _ _ _ _ _ H). }
  split; [exact Hn|]. split; [exact He|]. split; [exact Hm|].
  split; [apply join_split_lines|].
  split; [apply split_lines_no_newline|].
  split; [apply replace_no_newline|].
  split.
  { destruct (MIMEText_encodes w (html_body payload)); cbn;
      intros pre ev post Ht Hev.
    - destruct (secured_first_sound _ false pre post ev S Ht Hev) as [H|H];
        [discriminate H|exact H].
    - destruct (secured_first_sound _ false pre post ev S0 Ht Hev) as [H|H];
        [discriminate H|exact H]. }
  intros -> H. cbn. apply in_or_app. right.
  apply session_sendmail_reached. exact H.
Qed.

Lemma delivered_message_is_html_body_witness :
  validate (sample_world smtp_env (Some (Py.Str "65f0")) true) ada
  = Some ada_request
  /\ mail_config (sample_world smtp_env (Some (Py.Str "65f0")) true)
     = Some smtp_config
  /\ configured smtp_config = true
  /\ In (Sendmail (Some "bot@example.com") [Some "owner@example.com"]
           (build_message ada_request smtp_config))
        (fst (post_contact (sample_world smtp_env (Some (Py.Str "65f0")) true) ada)).
Proof.
  split; [reflexivity|]. split; [vm_compute; reflexivity|].
  split; [reflexivity|].
  apply (delivered_message_is_html_body
           (sample_world smtp_env (Some (Py.Str "65f0")) true)
           ada ada_request smtp_config);
    vm_compute; reflexivity.
Defined.

(** C10. In every response, [stored] is [true] exactly when the store
    call went through and gave back an identifier that Python counts as
    true: a string that is not empty, an integer other than 0, [True], or
    an object such as an [ObjectId] gives [stored = true]; [None], the
    empty string, 0 or [False] gives [stored = false], as a call that
    raised does.  A response is returned whenever the port setting reads
    as an integer and, if the six values are all there, [MIMEText] can
    encode the body. *)
Theorem stored_iff_truthy_identifier (w : World) (b : Body)
    (payload : ContactRequest) :
  validate w b = Some payload ->
  (forall r, snd (post_contact w b) = Ok200 r ->
     (stored r = true
      <-> exists id, create_call_result w payload = Some id
                     /\ Py.truthy id = true)
     /\ (create_call_result w payload = None -> stored r = false)
     /\ (forall id, create_call_result w payload = Some id ->
         id = Py.None_ \/ id = Py.Str "" \/ id = Py.Int 0
         \/ id = Py.Bool false ->
         stored r = false)
     /\ (forall id, create_call_result w payload = Some id ->
         (exists s, id = Py.Str s /\ s <> "")
         \/ (exists z, id = Py.Int z /\ z <> 0)
         \/ (exists o, id = Py.Obj o)
         \/ id = Py.Bool true ->
         stored r = true))
  /\ (forall c, mail_config w = Some c ->
      (configured c = true -> MIMEText_encodes w (html_body payload) = true) ->
      exists r, snd (post_contact w b) = Ok200 r).
Proof.
  intros V. split; [|intros c; exact (post_contact_returns w b payload c V)].
  intros r. rewrite (post_contact_eq w b payload V).
  assert (A : stored r = Py.truthy (default Py.None_ (create_call_result w payload)) ->
              (stored r = true
               <-> exists id, create_call_result w payload = Some id
                              /\ Py.truthy id = true)
              /\ (create_call_result w payload = None -> stored r = false)
              /\ (forall id, create_call_result w payload = Some id ->
                  id = Py.None_ \/ id = Py.Str "" \/ id = Py.Int 0
                  \/ id = Py.Bool false ->
                  stored r = false)
              /\ (forall id, create_call_result w payload = Some id ->
                  (exists s, id = Py.Str s /\ s <> "")
                  \/ (exists z, id = Py.Int z /\ z <> 0)
                  \/ (exists o, id = Py.Obj o)
                  \/ id = Py.Bool true ->
                  stored r = true)).
  { intros ->. destruct (create_call_result w payload) as [id|]; cbn.
    - split; [|split; [discriminate|split]].
      + split; [eauto|]. intros (id' & [= <-] & H). exact H.
      + intros id' [= <-] [->|[->|[->| ->]]]; reflexivity.
      + intros id' [= <-] [(s & -> & Hs)|[(z & -> & Hz)|[(o & ->)| ->]]]; cbn.
        * apply negb_true_iff, String.eqb_neq. exact Hs.
        * apply negb_true_iff, Z.eqb_neq. exact Hz.
        * reflexivity.
        * reflexivity.
    - split; [|split; [reflexivity|split; discriminate]].
      split; [discriminate|]. intros (id & H & _). discriminate. }
  destruct (mail_config w) as [c|]; cbn; [|discriminate].
  destruct (configured c); cbn;
    [destruct (MIMEText_encodes w (html_body payload)); cbn|];
    try discriminate; intros [= <-]; apply A; reflexivity.
Qed.

Lemma stored_iff_truthy_identifier_witness :
  validate (sample_world smtp_env (Some (Py.Str "65f0")) true) ada
  = Some ada_request
  /\ forall r,
      snd (post_contact (sample_world smtp_env (Some (Py.Str "65f0")) true) ada)
      = Ok200 r ->
      stored r = true.
Proof.
  split; [reflexivity|].
  intros r Hr.
  apply (proj1 (stored_iff_truthy_identifier
                  (sample_world smtp_env (Some (Py.Str "65f0")) true)
                  ada ada_request eq_refl) r Hr).
  exists (Py.Str "65f0"). split; reflexivity.
Defined.

(** * Further properties of the handler *)

Lemma validate_some (w : World) (b : Body) (payload : ContactRequest) :
  validate w b = Some payload <->
  exists e, EmailStr w (body_email b) = Some e
            /\ payload = {| name := body_name b; email := e;
                            message := body_message b |}.
Proof.
  unfold validate. destruct (EmailStr w (body_email b)) as [e|].
  - split.
    + intros [= <-]. eauto.
    + intros (e' & [= <-] & ->). reflexivity.
  - split; [discriminate|intros (e & H & _); discriminate].
Qed.

Lemma validate_none (w : World) (b : Body) :
  validate w b = None <-> EmailStr w (body_email b) = None.
Proof.
  unfold validate. destruct (EmailStr w (body_email b)); split; congruence.
Qed.

Lemma post_contact_invalid (w : World) (b : Body) :
  validate w b = None -> post_contact w b = ([], Unprocessable422).
Proof. intros V. unfold post_contact. rewrite V. reflexivity. Qed.

(** The cases a request can fall into: configured with a body that is
    encoded, configured with a body that is not, not configured, port
    unreadable, rejected. *)
Ltac request_cases w b payload V c E C T :=
  destruct (validate w b) as [payload|] eqn:V;
  [ rewrite (post_contact_eq w b payload V);
    destruct (mail_config w) as [c|] eqn:E;
    [ destruct (configured c) eqn:C;
      [ destruct (MIMEText_encodes w (html_body payload)) eqn:T | ]
    | ]
  | rewrite (post_contact_invalid w b V) ];
  cbn [fst snd].

Lemma store_calls_persistence (w : World) (payload : ContactRequest) :
  store_calls (persistence_events w payload) = persistence_events w payload.
Proof.
  unfold persistence_events.
  destruct (ContactMessage_accepts w _ _ _); reflexivity.
Qed.

Lemma smtp_events_session (w : World) (c : MailConfig) (msg : MIMEMultipart) :
  smtp_events (session_events w c msg) = session_events w c msg.
Proof.
  unfold session_events.
  destruct (relay_connect w _ _); [|reflexivity].
  destruct (relay_starttls w); [|reflexivity].
  destruct (relay_login w _ _), (as_string_returns w msg); reflexivity.
Qed.

(** X1. The status of the answer does not depend on the store, on the
    relay or on [as_string]: two surroundings with the same environment,
    the same address check and the same [MIMEText] answer a body with
    the same status, and when that is a 500, with the same exception.
    No failure of the store or of the SMTP session changes the status. *)
Theorem status_ignores_store_and_relay (w w' : World) (b : Body) :
  same_request_checks w w' ->
  status_code (snd (post_contact w b)) = status_code (snd (post_contact w' b))
  /\ (forall e, snd (post_contact w b) = ServerError500 e
                <-> snd (post_contact w' b) = ServerError500 e).
Proof.
  intros (He & Hv & Ht).
  assert (V' : validate w' b = validate w b).
  { unfold validate. rewrite Hv. reflexivity. }
  assert (E' : mail_config w' = mail_config w).
  { unfold mail_config, prepare_email, getenv_default, getenv.
    rewrite He. reflexivity. }
  destruct (validate w b) as [payload|] eqn:V.
  - rewrite (post_contact_eq w b payload V), (post_contact_eq w' b payload V'),
      E', <- Ht.
    destruct (mail_config w) as [c|]; cbn; [|split; [reflexivity|tauto]].
    destruct (configured c); cbn;
      [destruct (MIMEText_encodes w (html_body payload)); cbn|];
      (split; [reflexivity|]); intros e; split; try discriminate; auto.
  - rewrite (post_contact_invalid w b V), (post_contact_invalid w' b V').
    split; [reflexivity|tauto].
Qed.

Lemma status_ignores_store_and_relay_witness :
  same_request_checks (sample_world smtp_env (Some (Py.Str "65f0")) true)
                      (sample_world smtp_env None false)
  /\ status_code
       (snd (post_contact (sample_world smtp_env (Some (Py.Str "65f0")) true) ada))
     = status_code (snd (post_contact (sample_world smtp_env None false) ada)).
Proof.
  assert (S : same_request_checks
                (sample_world smtp_env (Some (Py.Str "65f0")) true)
                (sample_world smtp_env None false)).
  { repeat split. }
  split; [exact S|].
  apply (status_ignores_store_and_relay
           (sample_world smtp_env (Some (Py.Str "65f0")) true)
           (sample_world smtp_env None false) ada S).
Defined.

Lemma store_calls_closed_form (w : World) (b : Body) :
  store_calls (fst (post_contact w b))
  = match EmailStr w (body_email b) with
    | Some e =>
        if ContactMessage_accepts w (body_name b) e (body_message b)
        then [CreateDocument "contactmessage"
                {| doc_name := body_name b; doc_email := e;
                   doc_message := body_message b |}]
        else []
    | None => []
    end.
Proof.
  assert (P : forall payload e,
             payload = {| name := body_name b; email := e;
                          message := body_message b |} ->
             persistence_events w payload
             = if ContactMessage_accepts w (body_name b) e (body_message b)
               then [CreateDocument "contactmessage"
                       {| doc_name := body_name b; doc_email := e;
                          doc_message := body_message b |}]
               else []).
  { intros payload e ->. reflexivity. }
  request_cases w b payload V c E C T.
  - apply validate_some in V as (e & -> & Hp).
    rewrite store_calls_app, store_calls_session, app_nil_r,
      store_calls_persistence. exact (P payload e Hp).
  - apply validate_some in V as (e & -> & Hp).
    rewrite store_calls_persistence. exact (P payload e Hp).
  - apply validate_some in V as (e & -> & Hp).
    rewrite store_calls_persistence. exact (P payload e Hp).
  - apply validate_some in V as (e & -> & Hp).
    rewrite store_calls_persistence. exact (P payload e Hp).
  - apply validate_none in V. rewrite V. reflexivity.
Qed.

(** X2. The store is called with the collection ["contactmessage"] and a
    document holding the name and the message of the body and the address
    as pydantic returned it, once, exactly when the address and the
    document pass their checks; otherwise it is not called.  Neither the
    environment nor the relay changes that: the call is also made when
    the request then ends in a 500. *)
Theorem store_calls_of_request (w : World) (b : Body) :
  store_calls (fst (post_contact w b))
  = match EmailStr w (body_email b) with
    | Some e =>
        if ContactMessage_accepts w (body_name b) e (body_message b)
        then [CreateDocument "contactmessage"
                {| doc_name := body_name b; doc_email := e;
                   doc_message := body_message b |}]
        else []
    | None => []
    end.
Proof. exact (store_calls_closed_form w b). Qed.

(** X3. The store comes first: the trace of a request is its store call,
    if any, followed by its SMTP events.  No mail leaves before the
    document has been handed to the store. *)
Theorem store_before_mail (w : World) (b : Body) :
  fst (post_contact w b)
  = store_calls (fst (post_contact w b)) ++ smtp_events (fst (post_contact w b)).
Proof.
  request_cases w b payload V c E C T.
  - rewrite store_calls_app, smtp_events_app, store_calls_session,
      smtp_events_persistence, smtp_events_session,
      store_calls_persistence, app_nil_r. reflexivity.
  - rewrite store_calls_persistence, smtp_events_persistence, app_nil_r.
    reflexivity.
  - rewrite store_calls_persistence, smtp_events_persistence, app_nil_r.
    reflexivity.
  - rewrite store_calls_persistence, smtp_events_persistence, app_nil_r.
    reflexivity.
  - reflexivity.
Qed.

Lemma prepare_email_environ (w w' : World) :
  environ w = environ w' -> prepare_email w = prepare_email w'.
Proof.
  intros H. unfold prepare_email, getenv_default, getenv. rewrite H.
  reflexivity.
Qed.

Lemma session_same_relay (w w' : World) (c : MailConfig) (msg : MIMEMultipart) :
  same_but_store w w' ->
  session_events w c msg = session_events w' c msg
  /\ session_ok w c msg = session_ok w' c msg.
Proof.
  intros (_ & _ & Hc & Ht & Hl & Hs & Hq & _ & Ha).
  unfold session_events, session_ok. rewrite Hc, Ht, Hl, Hs, Hq, Ha. auto.
Qed.

(** X4. What the store does has no bearing on the mail: two surroundings
    that differ at most in the document store give the same SMTP events
    and the same answer up to its [stored] field. *)
Theorem store_does_not_affect_mail (w w' : World) (b : Body) :
  same_but_store w w' ->
  smtp_events (fst (post_contact w b)) = smtp_events (fst (post_contact w' b))
  /\ mail_outcome (snd (post_contact w b))
     = mail_outcome (snd (post_contact w' b)).
Proof.
  intros S. pose proof S as (He & Hv & _ & _ & _ & _ & _ & Hm & _).
  assert (V' : validate w' b = validate w b).
  { unfold validate. rewrite Hv. reflexivity. }
  assert (E' : mail_config w' = mail_config w).
  { unfold mail_config. rewrite (prepare_email_environ w w' He). reflexivity. }
  destruct (validate w b) as [payload|] eqn:V.
  - rewrite (post_contact_eq w b payload V), (post_contact_eq w' b payload V'),
      E', <- Hm.
    destruct (mail_config w) as [c|]; cbn.
    + destruct (session_same_relay w w' c (build_message payload c) S)
        as [<- <-].
      destruct (configured c); cbn;
        [destruct (MIMEText_encodes w (html_body payload)); cbn|].
      * rewrite !smtp_events_app, !smtp_events_persistence. auto.
      * rewrite !smtp_events_persistence. auto.
      * rewrite !smtp_events_persistence. auto.
    + rewrite !smtp_events_persistence. auto.
  - rewrite (post_contact_invalid w b V), (post_contact_invalid w' b V'). auto.
Qed.

Lemma store_does_not_affect_mail_witness :
  same_but_store (sample_world smtp_env (Some (Py.Str "65f0")) true)
                 (sample_world smtp_env None true)
  /\ smtp_events
       (fst (post_contact (sample_world smtp_env (Some (Py.Str "65f0")) true) ada))
     = smtp_events (fst (post_contact (sample_world smtp_env None true) ada)).
Proof.
  assert (S : same_but_store (sample_world smtp_env (Some (Py.Str "65f0")) true)
                             (sample_world smtp_env None true)).
  { repeat split. }
  split; [exact S|].
  apply (store_does_not_affect_mail
           (sample_world smtp_env (Some (Py.Str "65f0")) true)
           (sample_world smtp_env None true) ada S).
Defined.

Lemma stored_of_response (w : World) (b : Body) (payload : ContactRequest)
    (r : SubmissionResult) :
  validate w b = Some payload ->
  snd (post_contact w b) = Ok200 r ->
  stored r = Py.truthy (default Py.None_ (create_call_result w payload)).
Proof.
  intros V. rewrite (post_contact_eq w b payload V).
  destruct (mail_config w) as [c|]; cbn; [|discriminate].
  destruct (configured c); cbn;
    [destruct (MIMEText_encodes w (html_body payload)); cbn|];
    try discriminate; intros [= <-]; reflexivity.
Qed.

(** X5. What the environment and the relay do has no bearing on the
    store: two surroundings with the same address check and the same
    store make the same store call, and any two answers they return
    agree on [stored]. *)
Theorem mail_does_not_affect_store (w w' : World) (b : Body) :
  same_store w w' ->
  store_calls (fst (post_contact w b)) = store_calls (fst (post_contact w' b))
  /\ (forall r r',
        snd (post_contact w b) = Ok200 r ->
        snd (post_contact w' b) = Ok200 r' ->
        stored r = stored r').
Proof.
  intros (Hv & Ha & Hd). split.
  - rewrite !store_calls_closed_form. rewrite Hv, Ha. reflexivity.
  - assert (V' : validate w' b = validate w b).
    { unfold validate. rewrite Hv. reflexivity. }
    destruct (validate w b) as [payload|] eqn:V.
    + assert (R : create_call_result w' payload = create_call_result w payload).
      { unfold create_call_result. rewrite Ha, Hd. reflexivity. }
      intros r r' Hr Hr'.
      rewrite (stored_of_response w b payload r V Hr),
        (stored_of_response w' b payload r' V' Hr'), R.
      reflexivity.
    + rewrite (post_contact_invalid w b V). discriminate.
Qed.

Lemma mail_does_not_affect_store_witness :
  same_store (sample_world smtp_env (Some (Py.Str "65f0")) true)
             (sample_world (list_to_map []) (Some (Py.Str "65f0")) false)
  /\ store_calls
       (fst (post_contact (sample_world smtp_env (Some (Py.Str "65f0")) true) ada))
     = store_calls
         (fst (post_contact
                 (sample_world (list_to_map []) (Some (Py.Str "65f0")) false) ada)).
Proof.
  assert (S : same_store (sample_world smtp_env (Some (Py.Str "65f0")) true)
                (sample_world (list_to_map []) (Some (Py.Str "65f0")) false)).
  { repeat split. }
  split; [exact S|].
  apply (mail_does_not_affect_store
           (sample_world smtp_env (Some (Py.Str "65f0")) true)
           (sample_world (list_to_map []) (Some (Py.Str "65f0")) false) ada S).
Defined.

Lemma prepare_email_agree (w : World) (env' : gmap string string) :
  (forall k, In k mail_variables -> env' !! k = environ w !! k) ->
  prepare_email (with_environ w env') = prepare_email w.
Proof.
  intros H. unfold prepare_email, getenv_default, getenv.
  cbn [environ with_environ].
  rewrite (H "SMTP_HOST"), (H "SMTP_PORT"), (H "SMTP_USER"), (H "SMTP_PASS"),
    (H "SMTP_FROM"), (H "SMTP_TO"), (H "CONTACT_RECIPIENT")
    by (cbn; tauto).
  reflexivity.
Qed.

(** X6. The handler reads seven variables and no other: an environment
    that agrees with the present one on SMTP_HOST, SMTP_PORT, SMTP_USER,
    SMTP_PASS, SMTP_FROM, SMTP_TO and CONTACT_RECIPIENT gives the same
    trace and the same answer, whatever else it sets or leaves out. *)
Theorem other_variables_are_ignored (w : World) (env' : gmap string string)
    (b : Body) :
  (forall k, In k mail_variables -> env' !! k = environ w !! k) ->
  post_contact (with_environ w env') b = post_contact w b.
Proof.
  intros H. unfold post_contact.
  change (validate (with_environ w env') b) with (validate w b).
  destruct (validate w b) as [payload|]; [|reflexivity].
  unfold submit_contact. rewrite (prepare_email_agree w env' H).
  reflexivity.
Qed.

Lemma other_variables_are_ignored_witness :
  (forall k, In k mail_variables ->
     (<["DATABASE_URL" := "mongodb://db"]> (delete "PORT" smtp_env)) !! k
     = environ (sample_world smtp_env (Some (Py.Str "65f0")) true) !! k)
  /\ post_contact
       (with_environ (sample_world smtp_env (Some (Py.Str "65f0")) true)
          (<["DATABASE_URL" := "mongodb://db"]> (delete "PORT" smtp_env))) ada
     = post_contact (sample_world smtp_env (Some (Py.Str "65f0")) true) ada.
Proof.
  assert (H : forall k, In k mail_variables ->
     (<["DATABASE_URL" := "mongodb://db"]> (delete "PORT" smtp_env)) !! k
     = environ (sample_world smtp_env (Some (Py.Str "65f0")) true) !! k).
  { intros k Hk. cbn in Hk.
    destruct Hk as [<-|[<-|[<-|[<-|[<-|[<-|[<-|[]]]]]]]]; vm_compute; reflexivity. }
  split; [exact H|].
  apply (other_variables_are_ignored
           (sample_world smtp_env (Some (Py.Str "65f0")) true)
           (<["DATABASE_URL" := "mongodb://db"]> (delete "PORT" smtp_env)) ada H).
Defined.

(** ** The SMTP session in the trace *)

Lemma in_persistence_is_store_call (w : World) (payload : ContactRequest)
    (ev : Event) :
  In ev (persistence_events w payload) -> is_store_call ev = true.
Proof.
  unfold persistence_events.
  destruct (ContactMessage_accepts w _ _ _); cbn; [|tauto].
  intros [<-|[]]. reflexivity.
Qed.

(** An event of the trace other than the store call belongs to the
    session of a request that passed validation, with the six values
    there. *)
Lemma smtp_event_origin (w : World) (b : Body) (ev : Event) :
  In ev (fst (post_contact w b)) ->
  is_store_call ev = false ->
  exists payload c,
    validate w b = Some payload /\ mail_config w = Some c
    /\ configured c = true
    /\ fst (post_contact w b)
       = persistence_events w payload
           ++ session_events w c (build_message payload c)
    /\ In ev (session_events w c (build_message payload c)).
Proof.
  intros H Hev.
  assert (P : forall payload, ~ In ev (persistence_events w payload)).
  { intros payload Hp. apply in_persistence_is_store_call in Hp. congruence. }
  revert H. request_cases w b payload V c E C T; intros H.
  - exists payload, c. repeat split; try assumption.
    apply in_app_or in H as [H|H]; [destruct (P payload H)|exact H].
  - destruct (P payload H).
  - destruct (P payload H).
  - destruct (P payload H).
  - destruct H.
Qed.

Lemma session_events_cases (w : World) (c : MailConfig) (msg : MIMEMultipart) :
  let t := session_events w c msg in
  let open := SMTPOpen (smtp_host c) (smtp_port c) SMTP_TIMEOUT in
  let login := Login (smtp_user c) (smtp_pass c) in
  let send := Sendmail (smtp_from c) [smtp_to c] msg in
  (relay_connect w (smtp_host c) (smtp_port c) = false /\ t = [open])
  \/ (relay_connect w (smtp_host c) (smtp_port c) = true
      /\ relay_starttls w = false /\ t = [open; StartTLS; Quit])
  \/ (relay_connect w (smtp_host c) (smtp_port c) = true
      /\ relay_starttls w = true
      /\ relay_login w (smtp_user c) (smtp_pass c) && as_string_returns w msg
         = false
      /\ t = [open; StartTLS; login; Quit])
  \/ (relay_connect w (smtp_host c) (smtp_port c) = true
      /\ relay_starttls w = true
      /\ relay_login w (smtp_user c) (smtp_pass c) && as_string_returns w msg
         = true
      /\ t = [open; StartTLS; login; send; Quit]).
Proof.
  unfold session_events.
  destruct (relay_connect w _ _); [|auto].
  destruct (relay_starttls w); [|auto 6].
  destruct (relay_login w _ _ && as_string_returns w msg); cbn; auto 10.
Qed.

(** X7. Credentials and mail go out only on a session whose STARTTLS
    went through: when the trace holds a login or a transmission, the
    connection was accepted and the relay took the STARTTLS.  After a
    refused STARTTLS neither the password nor the message is sent. *)
Theorem credentials_only_after_tls (w : World) (b : Body) (ev : Event) :
  In ev (fst (post_contact w b)) ->
  sends_credentials_or_mail ev = true ->
  relay_starttls w = true
  /\ exists c, mail_config w = Some c /\ configured c = true
               /\ relay_connect w (smtp_host c) (smtp_port c) = true.
Proof.
  intros H Hev.
  destruct (smtp_event_origin w b ev H) as (payload & c & _ & E & C & _ & Hs).
  { destruct ev; try discriminate; reflexivity. }
  destruct (session_events_cases w c (build_message payload c))
    as [(_ & T)|[(_ & _ & T)|[(Hc & Ht & _ & T)|(Hc & Ht & _ & T)]]];
    cbv zeta in T; rewrite T in Hs; cbn in Hs.
  - destruct Hs as [<-|[]]. discriminate.
  - destruct Hs as [<-|[<-|[<-|[]]]]; discriminate.
  - split; [exact Ht|]. exists c. auto.
  - split; [exact Ht|]. exists c. auto.
Qed.

Lemma credentials_only_after_tls_witness :
  In (Login (Some "bot@example.com") (Some "hunter2"))
     (fst (post_contact (sample_world smtp_env (Some (Py.Str "65f0")) true) ada))
  /\ relay_starttls (sample_world smtp_env (Some (Py.Str "65f0")) true) = true.
Proof.
  assert (H : In (Login (Some "bot@example.com") (Some "hunter2"))
                (fst (post_contact
                        (sample_world smtp_env (Some (Py.Str "65f0")) true) ada))).
  { vm_compute. auto. }
  split; [exact H|].
  apply (credentials_only_after_tls
           (sample_world smtp_env (Some (Py.Str "65f0")) true) ada
           (Login (Some "bot@example.com") (Some "hunter2")) H eq_refl).
Defined.

(** X8. [email_sent = true] is never reported without a transmission:
    the SMTP events of such a request are the five steps of a whole
    session, in order, the message being the one built from the request,
    and the answer carries the thanks message. *)
Theorem email_sent_means_handed_over (w : World) (b : Body)
    (r : SubmissionResult) :
  snd (post_contact w b) = Ok200 r ->
  email_sent r = true ->
  exists payload c,
    validate w b = Some payload /\ mail_config w = Some c
    /\ smtp_events (fst (post_contact w b))
       = [SMTPOpen (smtp_host c) (smtp_port c) SMTP_TIMEOUT;
          StartTLS;
          Login (smtp_user c) (smtp_pass c);
          Sendmail (smtp_from c) [smtp_to c] (build_message payload c);
          Quit]
    /\ result_message r = THANKS.
Proof.
  request_cases w b payload V c E C T; try discriminate.
  - intros [= <-]. cbn. intros S. exists payload, c.
    split; [reflexivity|]. split; [reflexivity|]. split; [|reflexivity].
    rewrite smtp_events_app, smtp_events_persistence, smtp_events_session.
    unfold session_ok in S.
    apply andb_true_iff in S as [S _]. apply andb_true_iff in S as [S _].
    apply andb_true_iff in S as [S Ha]. apply andb_true_iff in S as [S Hl].
    apply andb_true_iff in S as [Hc Ht].
    unfold session_events. rewrite Hc, Ht, Hl, Ha. reflexivity.
  - intros [= <-]. discriminate.
Qed.

Lemma email_sent_means_handed_over_witness :
  snd (post_contact (sample_world smtp_env (Some (Py.Str "65f0")) true) ada)
  = Ok200 {| ok := true; stored := true; email_sent := true;
             result_message := THANKS |}
  /\ exists payload c,
      validate (sample_world smtp_env (Some (Py.Str "65f0")) true) ada
      = Some payload
      /\ mail_config (sample_world smtp_env (Some (Py.Str "65f0")) true) = Some c
      /\ smtp_events
           (fst (post_contact (sample_world smtp_env (Some (Py.Str "65f0")) true) ada))
         = [SMTPOpen (smtp_host c) (smtp_port c) SMTP_TIMEOUT;
            StartTLS;
            Login (smtp_user c) (smtp_pass c);
            Sendmail (smtp_from c) [smtp_to c] (build_message payload c);
            Quit]
      /\ result_message
           {| ok := true; stored := true; email_sent := true;
              result_message := THANKS |} = THANKS.
Proof.
  assert (H : snd (post_contact
                     (sample_world smtp_env (Some (Py.Str "65f0")) true) ada)
              = Ok200 {| ok := true; stored := true; email_sent := true;
                         result_message := THANKS |}).
  { vm_compute. reflexivity. }
  split; [exact H|].
  apply (email_sent_means_handed_over
           (sample_world smtp_env (Some (Py.Str "65f0")) true) ada _ H eq_refl).
Defined.

Lemma in_session_open (w : World) (c : MailConfig) (msg : MIMEMultipart)
    (h : option string) (p t0 : Z) :
  In (SMTPOpen h p t0) (session_events w c msg) ->
  h = smtp_host c /\ p = smtp_port c /\ t0 = SMTP_TIMEOUT.
Proof.
  destruct (session_events_cases w c msg)
    as [(_ & T)|[(_ & _ & T)|[(_ & _ & _ & T)|(_ & _ & _ & T)]]];
    cbv zeta in T; rewrite T; cbn; intros H;
    repeat (destruct H as [H|H]; [try discriminate H|]);
    try contradiction; injection H as <- <- <-; auto.
Qed.

Lemma in_session_login (w : World) (c : MailConfig) (msg : MIMEMultipart)
    (u pw : option string) :
  In (Login u pw) (session_events w c msg) ->
  u = smtp_user c /\ pw = smtp_pass c.
Proof.
  destruct (session_events_cases w c msg)
    as [(_ & T)|[(_ & _ & T)|[(_ & _ & _ & T)|(_ & _ & _ & T)]]];
    cbv zeta in T; rewrite T; cbn; intros H;
    repeat (destruct H as [H|H]; [try discriminate H|]);
    try contradiction; injection H as <- <-; auto.
Qed.

(** X9. A connection that was accepted is closed again: when the relay
    accepted the connection, the last event of the trace is the QUIT,
    however far the session got; when it refused, no QUIT is sent and
    the connection attempt is the last event. *)
Theorem connection_is_closed (w : World) (b : Body) (h : option string)
    (p t0 : Z) :
  In (SMTPOpen h p t0) (fst (post_contact w b)) ->
  (relay_connect w h p = true -> last (fst (post_contact w b)) = Some Quit)
  /\ (relay_connect w h p = false ->
      ~ In Quit (fst (post_contact w b))
      /\ last (fst (post_contact w b)) = Some (SMTPOpen h p t0)).
Proof.
  intros H.
  destruct (smtp_event_origin w b _ H eq_refl)
    as (payload & c & _ & _ & _ & -> & Hs).
  apply in_session_open in Hs as (-> & -> & ->).
  destruct (session_events_cases w c (build_message payload c))
    as [(Hc & T)|[(Hc & _ & T)|[(Hc & _ & _ & T)|(Hc & _ & _ & T)]]];
    cbv zeta in T; rewrite T, Hc.
  - split; [discriminate|]. intros _. split.
    + intros Hq. apply in_app_or in Hq as [Hq|Hq].
      * apply in_persistence_is_store_call in Hq. discriminate.
      * destruct Hq as [Hq|[]]. discriminate.
    + rewrite last_app. reflexivity.
  - split; [|discriminate]. intros _. rewrite last_app. reflexivity.
  - split; [|discriminate]. intros _. rewrite last_app. reflexivity.
  - split; [|discriminate]. intros _. rewrite last_app. reflexivity.
Qed.

Lemma connection_is_closed_witness :
  In (SMTPOpen (Some "smtp.example.com") 587 15)
     (fst (post_contact (sample_world smtp_env None true) ada))
  /\ last (fst (post_contact (sample_world smtp_env None true) ada)) = Some Quit.
Proof.
  assert (H : In (SMTPOpen (Some "smtp.example.com") 587 15)
                (fst (post_contact (sample_world smtp_env None true) ada))).
  { vm_compute. auto. }
  split; [exact H|].
  apply (proj1 (connection_is_closed (sample_world smtp_env None true) ada
                  (Some "smtp.example.com") 587 15 H)).
  reflexivity.
Defined.

(** X10. The envelope agrees with the headers: every message handed to
    the relay has the envelope sender as its From header and the single
    envelope recipient as its To header, neither of them empty, the
    sender being SMTP_FROM or else SMTP_USER and the recipient SMTP_TO or
    else CONTACT_RECIPIENT; its Subject is the fixed prefix followed by
    the name of the request. *)
Theorem envelope_matches_headers (w : World) (b : Body)
    (from : option string) (to : list (option string)) (msg : MIMEMultipart) :
  In (Sendmail from to msg) (fst (post_contact w b)) ->
  get_header "From" msg = Some from
  /\ (exists rcpt, to = [rcpt] /\ get_header "To" msg = Some rcpt
                   /\ Py.truthy_str rcpt = true)
  /\ Py.truthy_str from = true
  /\ from = Py.or_ (getenv w "SMTP_FROM") (getenv w "SMTP_USER")
  /\ to = [Py.or_ (getenv w "SMTP_TO") (getenv w "CONTACT_RECIPIENT")]
  /\ get_header "Subject" msg
     = Some (Some ("New Inquiry from Bean and Cofe: " +:+ body_name b)).
Proof.
  intros H.
  destruct (smtp_event_origin w b _ H eq_refl)
    as (payload & c & V & E & C & _ & Hs).
  apply in_session_sendmail in Hs as (-> & -> & ->).
  apply configured_true_iff in C as (_ & _ & _ & _ & Cf & Ct).
  apply validate_some in V as (e & _ & ->).
  destruct (prepare_email_cases w)
    as [(_ & N & _)|(c' & _ & E' & _ & _ & _ & _ & Hf & Ht)]; [congruence|].
  assert (c' = c) as -> by congruence.
  split; [reflexivity|].
  split; [exists (smtp_to c); auto|].
  split; [exact Cf|]. split; [exact Hf|]. split; [congruence|reflexivity].
Qed.

Lemma envelope_matches_headers_witness :
  In (Sendmail (Some "bot@example.com") [Some "owner@example.com"]
        (build_message ada_request smtp_config))
     (fst (post_contact (sample_world smtp_env (Some (Py.Str "65f0")) true) ada))
  /\ get_header "From" (build_message ada_request smtp_config)
     = Some (Some "bot@example.com").
Proof.
  assert (H : In (Sendmail (Some "bot@example.com") [Some "owner@example.com"]
                    (build_message ada_request smtp_config))
                (fst (post_contact
                        (sample_world smtp_env (Some (Py.Str "65f0")) true) ada))).
  { vm_compute. auto 6. }
  split; [exact H|].
  apply (envelope_matches_headers
           (sample_world smtp_env (Some (Py.Str "65f0")) true) ada _ _ _ H).
Defined.

(** X11. The session is opened with what the environment says and with
    a timeout of 15 seconds: a connection goes to SMTP_HOST, which is not
    empty, on the port the port setting reads as, which is not 0; a login
    sends SMTP_USER and SMTP_PASS, neither of them empty. *)
Theorem session_parameters_from_environment (w : World) (b : Body) (ev : Event) :
  In ev (fst (post_contact w b)) ->
  match ev with
  | SMTPOpen h p t0 =>
      t0 = 15 /\ h = getenv w "SMTP_HOST" /\ Py.truthy_str h = true
      /\ Py.int (port_setting w) = Some p /\ p <> 0
  | Login u pw =>
      u = getenv w "SMTP_USER" /\ pw = getenv w "SMTP_PASS"
      /\ Py.truthy_str u = true /\ Py.truthy_str pw = true
  | _ => True
  end.
Proof.
  intros H. destruct ev as [| h p t0 | | u pw | |]; try exact I.
  - destruct (smtp_event_origin w b _ H eq_refl)
      as (payload & c & _ & E & C & _ & Hs).
    apply in_session_open in Hs as (-> & -> & ->).
    apply configured_true_iff in C as (Ch & Cp & _).
    destruct (prepare_email_cases w)
      as [(_ & N & _)|(c' & _ & E' & P & Hh & _)]; [congruence|].
    assert (c' = c) as -> by congruence. auto.
  - destruct (smtp_event_origin w b _ H eq_refl)
      as (payload & c & _ & E & C & _ & Hs).
    apply in_session_login in Hs as (-> & ->).
    apply configured_true_iff in C as (_ & _ & Cu & Cp & _).
    destruct (prepare_email_cases w)
      as [(_ & N & _)|(c' & _ & E' & _ & _ & Hu & Hp & _)]; [congruence|].
    assert (c' = c) as -> by congruence. auto.
Qed.

Lemma session_parameters_from_environment_witness :
  In (SMTPOpen (Some "smtp.example.com") 2525 15)
     (fst (post_contact
             (sample_world (<["SMTP_PORT" := "2525"]> smtp_env) None false) ada))
  /\ Py.int (port_setting
               (sample_world (<["SMTP_PORT" := "2525"]> smtp_env) None false))
     = Some 2525.
Proof.
  assert (H : In (SMTPOpen (Some "smtp.example.com") 2525 15)
                (fst (post_contact
                        (sample_world (<["SMTP_PORT" := "2525"]> smtp_env)
                           None false) ada))).
  { vm_compute. auto. }
  split; [exact H|].
  apply (session_parameters_from_environment
           (sample_world (<["SMTP_PORT" := "2525"]> smtp_env) None false) ada
           (SMTPOpen (Some "smtp.example.com") 2525 15) H).
Defined.

(** X12. The body does not tell a line feed from the markup that
    replaces it: a message with a line feed and the same message with
    ["<br/>"] typed in its place give the same body. *)
Theorem line_feed_and_markup_coincide (n e s t : string) :
  html_body {| name := n; email := e; message := s +:+ String newline t |}
  = html_body {| name := n; email := e; message := s +:+ "<br/>" +:+ t |}.
Proof.
  unfold html_body. cbn [name email message].
  rewrite !replace_append, replace_cons_newline. reflexivity.
Qed.

(** * The endpoint [GET /test] *)




(** On a text without bytes above 7F a character is a byte. *)
Lemma code_points_ascii (s : string) :
  Forall (fun c => (nat_of_ascii c < 128)%nat) (list_ascii_of_string s) ->
  Diagnostics.code_points s = String.length s.
Proof.
  induction s as [|c s IH]; cbn; [reflexivity|].
  intros H. inversion H as [|? ? Hc Hs]; subst.
  unfold Diagnostics.is_continuation.
  destruct (Nat.leb_spec 128 (nat_of_ascii c)); [lia|]. cbn.
  rewrite IH by exact Hs. reflexivity.
Qed.

(** An accented letter is one character of two bytes, and is kept
    whole. *)
Example str_take_counts_characters :
  Diagnostics.str_take 2 (String "195" (String "169" (String "195"
                            (String "169" (String "195" (String "169" ""))))))
  = String "195" (String "169" (String "195" (String "169" "")))
  /\ Diagnostics.code_points
       (String "195" (String "169" (String "195" (String "169" "")))) = 2%nat.
Proof. split; reflexivity. Qed.

(** The dictionary [test_database] returns, by the state of the
    database. *)
Lemma test_database_eq (db : Diagnostics.Db) (env : gmap string string) :
  Diagnostics.test_database db env
  = inr (<["database_name" := Diagnostics.env_flag env "DATABASE_NAME"]>
         (<["database_url" := Diagnostics.env_flag env "DATABASE_URL"]>
          match db with
          | None =>
              <["database" := Diagnostics.Text
                  (Diagnostics.WARNING_SIGN +:+ "  Available but not initialized")]>
                Diagnostics.initial_response
          | Some (inl e) =>
              <["database" := Diagnostics.Text
                  (Diagnostics.WARNING_SIGN +:+ "  Connected but Error: "
                   +:+ Diagnostics.str_take 50 e)]>
                (<["database" := Diagnostics.Text
                    (Diagnostics.CHECK_MARK +:+ " Available")]>
                   Diagnostics.initial_response)
          | Some (inr names) =>
              <["connection_status" := Diagnostics.Text "Connected"]>
                (<["database" := Diagnostics.Text
                    (Diagnostics.CHECK_MARK +:+ " Connected & Working")]>
                   (<["collections" := Diagnostics.Names (firstn 10 names)]>
                      (<["database" := Diagnostics.Text
                          (Diagnostics.CHECK_MARK +:+ " Available")]>
                         Diagnostics.initial_response)))
          end)).
Proof. destruct db as [[e|names]|]; reflexivity. Qed.

(** X13. [test_database] always returns, and the dictionary it returns
    has the six keys it started with, no more and no fewer, whatever the
    database and the environment do. *)
Theorem test_database_keys (db : Diagnostics.Db) (env : gmap string string) :
  exists r, Diagnostics.test_database db env = inr r
            /\ dom r = Diagnostics.response_keys.
Proof.
  rewrite test_database_eq. eexists. split; [reflexivity|].
  destruct db as [[e|names]|]; rewrite !dom_insert_L;
    unfold Diagnostics.initial_response, Diagnostics.response_keys;
    set_solver.
Qed.

(** X14. The two status fields agree: [connection_status] is
    ["Connected"] exactly when [list_collection_names] returned, and
    exactly then [database] reads "Connected & Working"; otherwise
    [connection_status] keeps its initial ["Not Connected"]. *)
Theorem connected_iff_listing_returned (db : Diagnostics.Db)
    (env : gmap string string) :
  exists r, Diagnostics.test_database db env = inr r
    /\ (Diagnostics.text_of r "connection_status" = Some "Connected"
        <-> exists names, db = Some (inr names))
    /\ (Diagnostics.text_of r "database"
        = Some (Diagnostics.CHECK_MARK +:+ " Connected & Working")
        <-> exists names, db = Some (inr names))
    /\ (Diagnostics.text_of r "connection_status" = Some "Not Connected"
        <-> forall names, db <> Some (inr names)).
Proof.
  rewrite test_database_eq. eexists. split; [reflexivity|].
  unfold Diagnostics.text_of.
  destruct db as [[e|names]|]; simplify_map_eq.
  - split; [split; [discriminate|intros (n & H); discriminate]|].
    split; [split; [discriminate|intros (n & H); discriminate]|].
    split; [discriminate|reflexivity].
  - split; [split; eauto|]. split; [split; eauto|].
    split; [discriminate|]. intros H. destruct (H names eq_refl).
  - split; [split; [discriminate|intros (n & H); discriminate]|].
    split; [split; [discriminate|intros (n & H); discriminate]|].
    split; [discriminate|reflexivity].
Qed.

(** X15. [collections] holds at most ten names: the first ten that
    [list_collection_names] returned, in their order, all of them when
    there are no more than ten; it stays empty when the database is not
    set up or the listing raised. *)
Theorem collections_are_first_ten (db : Diagnostics.Db)
    (env : gmap string string) :
  exists r l, Diagnostics.test_database db env = inr r
    /\ Diagnostics.names_of r "collections" = Some l
    /\ (length l <= 10)%nat
    /\ (forall names, db = Some (inr names) ->
        l = firstn 10 names
        /\ (exists rest, names = l ++ rest)
        /\ ((length names <= 10)%nat -> l = names))
    /\ ((forall names, db <> Some (inr names)) -> l = []).
Proof.
  rewrite test_database_eq. unfold Diagnostics.names_of.
  destruct db as [[e|names]|].
  - eexists _, []. split; [reflexivity|]. simplify_map_eq.
    split; [reflexivity|]. split; [cbn; lia|].
    split; [intros names; discriminate|reflexivity].
  - eexists _, (firstn 10 names). split; [reflexivity|]. simplify_map_eq.
    split; [reflexivity|]. split; [apply firstn_le_length|].
    split.
    + intros names' [= <-]. split; [reflexivity|].
      split; [exists (skipn 10 names); symmetry; apply firstn_skipn|].
      intros H. apply firstn_all2. exact H.
    + intros H. destruct (H names eq_refl).
  - eexists _, []. split; [reflexivity|]. simplify_map_eq.
    split; [reflexivity|]. split; [cbn; lia|].
    split; [intros names; discriminate|reflexivity].
Qed.


Lemma env_flag_set (env : gmap string string) (k : string) :
  (Diagnostics.env_flag env k
   = Diagnostics.Text (Diagnostics.CHECK_MARK +:+ " Set")
   <-> exists v, env !! k = Some v /\ v <> "")
  /\ (Diagnostics.env_flag env k
      = Diagnostics.Text (Diagnostics.CROSS_MARK +:+ " Not Set")
      <-> env !! k = None \/ env !! k = Some "").
Proof.
  unfold Diagnostics.env_flag.
  destruct (env !! k) as [v|]; cbn.
  - destruct (String.eqb_spec v "") as [->|Hv]; cbn.
    + split; [split; [discriminate|intros (v & [= <-] & H); congruence]|].
      split; auto.
    + split; [split; eauto|].
      split; [discriminate|intros [H|[= H]]; congruence].
  - split; [split; [discriminate|intros (v & H & _); discriminate]|].
    split; auto.
Qed.

(** X17. [database_url] and [database_name] say "Set" exactly when
    DATABASE_URL, respectively DATABASE_NAME, is set to a string that is
    not empty, and "Not Set" when the variable is unset or empty; what
    the database does plays no part. *)
Theorem environment_flags (db : Diagnostics.Db) (env : gmap string string) :
  exists r, Diagnostics.test_database db env = inr r
    /\ (Diagnostics.text_of r "database_url"
        = Some (Diagnostics.CHECK_MARK +:+ " Set")
        <-> exists v, env !! "DATABASE_URL" = Some v /\ v <> "")
    /\ (Diagnostics.text_of r "database_url"
        = Some (Diagnostics.CROSS_MARK +:+ " Not Set")
        <-> env !! "DATABASE_URL" = None \/ env !! "DATABASE_URL" = Some "")
    /\ (Diagnostics.text_of r "database_name"
        = Some (Diagnostics.CHECK_MARK +:+ " Set")
        <-> exists v, env !! "DATABASE_NAME" = Some v /\ v <> "")
    /\ (Diagnostics.text_of r "database_name"
        = Some (Diagnostics.CROSS_MARK +:+ " Not Set")
        <-> env !! "DATABASE_NAME" = None \/ env !! "DATABASE_NAME" = Some "").
Proof.
  rewrite test_database_eq. eexists. split; [reflexivity|].
  assert (T : forall i s, match i with
                          | Diagnostics.Text s' => Some s'
                          | _ => None
                          end = Some s
                          <-> i = Diagnostics.Text s).
  { intros [|s'|l] s; split; try discriminate; congruence. }
  unfold Diagnostics.text_of.
  rewrite lookup_insert_ne, !lookup_insert_eq by discriminate.
  rewrite !T.
  destruct (env_flag_set env "DATABASE_URL") as [U1 U2].
  destruct (env_flag_set env "DATABASE_NAME") as [N1 N2].
  auto.
Qed.
